(** * vue-calendar: the [useCalendar] and [useCalendarState] composables

    A shallow embedding of [src/composables/useCalendar.ts] together with
    the parts it consumes: the calendar-date capability of
    [@internationalized/date] and the helpers of [../utils]. *)

From Stdlib Require Import ZArith String List Bool Lia DecimalString.
Import ListNotations.
Local Open Scope Z_scope.

(** ** The calendar-date capability

    [DateValue] of [@internationalized/date], read as a [CalendarDate] of
    the Gregorian calendar: a year, a month and a day, with no time of day
    and no other calendar.  Years are proleptic and unbounded: the
    library's eras and its clamping of years to one era are outside this
    model, so [addMonths] is the library's [add] only while the result
    stays within the years 1..9999 ([inYears] below); statements that rest
    on month arithmetic carry that as a hypothesis.  Every operation below
    follows the library function of the same name on that calendar. *)
Module Date.

Record CalendarDate : Type := mkDate { year : Z; month : Z; day : Z }.

Definition isLeapYear (y : Z) : bool :=
  (y mod 4 =? 0) && (negb (y mod 100 =? 0) || (y mod 400 =? 0)).

(** [daysInMonth[isLeapYear(year) ? 'leapyear' : 'standard'][month - 1]] *)
Definition getDaysInMonth (y m : Z) : Z :=
  nth (Z.to_nat (m - 1))
      (if isLeapYear y
       then [31; 29; 31; 30; 31; 30; 31; 31; 30; 31; 30; 31]
       else [31; 28; 31; 30; 31; 30; 31; 31; 30; 31; 30; 31])
      31.

Definition EPOCH : Z := 1721426.

(** [gregorianToJulianDay] *)
Definition toJulianDay (d : CalendarDate) : Z :=
  let y1 := year d - 1 in
  let monthOffset :=
    if month d <=? 2 then 0 else if isLeapYear (year d) then -1 else -2 in
  EPOCH - 1 + 365 * y1 + y1 / 4 - y1 / 100 + y1 / 400
  + ((367 * month d - 362) / 12 + monthOffset + day d).

(** [getDayOfWeek] counted from Sunday, the spec's [dayOfWeek() -> 0..6]. *)
Definition getDayOfWeek (d : CalendarDate) : Z := (toJulianDay d + 1) mod 7.

(** [constrainMonthDay]: the month is brought into 1..12, then the day into
    1..daysInMonth. *)
Definition constrainMonthDay (d : CalendarDate) : CalendarDate :=
  let m := Z.max 1 (Z.min 12 (month d)) in
  mkDate (year d) m (Z.max 1 (Z.min (getDaysInMonth (year d) m) (day d))).

(** [balanceYearMonth]: months outside 1..12 carry into the year. *)
Definition balanceYearMonth (d : CalendarDate) : CalendarDate :=
  let t := year d * 12 + (month d - 1) in
  mkDate (t / 12) (t mod 12 + 1) (day d).

(** [date.add({ months: n })] *)
Definition addMonths (d : CalendarDate) (n : Z) : CalendarDate :=
  constrainMonthDay (balanceYearMonth (mkDate (year d) (month d + n) (day d))).

(** [date.subtract({ months: n })] is [add] of the inverted duration. *)
Definition subtractMonths (d : CalendarDate) (n : Z) : CalendarDate :=
  addMonths d (- n).

(** [date.add({ days: 1 })] *)
Definition nextDay (d : CalendarDate) : CalendarDate :=
  if day d <? getDaysInMonth (year d) (month d)
  then mkDate (year d) (month d) (day d + 1)
  else if month d <? 12
       then mkDate (year d) (month d + 1) 1
       else mkDate (year d + 1) 1 1.

(** [date.subtract({ days: 1 })] *)
Definition prevDay (d : CalendarDate) : CalendarDate :=
  if 1 <? day d
  then mkDate (year d) (month d) (day d - 1)
  else if 1 <? month d
       then mkDate (year d) (month d - 1) (getDaysInMonth (year d) (month d - 1))
       else mkDate (year d - 1) 12 31.

(** [date.add({ days: n })] for a non-negative whole number of days. *)
Fixpoint addDays (d : CalendarDate) (n : nat) : CalendarDate :=
  match n with
  | O => d
  | S k => addDays (nextDay d) k
  end.

Definition startOfMonth (d : CalendarDate) : CalendarDate :=
  mkDate (year d) (month d) 1.

Definition endOfMonth (d : CalendarDate) : CalendarDate :=
  mkDate (year d) (month d) (getDaysInMonth (year d) (month d)).

(** [a.compare(b)]: negative, zero or positive. *)
Definition compare (a b : CalendarDate) : Z := toJulianDay a - toJulianDay b.

Definition isSameDay (a b : CalendarDate) : bool :=
  (year a =? year b) && (month a =? month b) && (day a =? day b).

Definition isSameMonth (a b : CalendarDate) : bool :=
  let a' := startOfMonth a in
  let b' := startOfMonth b in
  (year a' =? year b') && (month a' =? month b').

(** [base.set({ ...fields })]: every field of [base] is overwritten by the
    spread, then the result is constrained. *)
Definition set (base fields : CalendarDate) : CalendarDate :=
  constrainMonthDay (mkDate (year fields) (month fields) (day fields)).

(** The day number splits into a part of the year, a part of the month
    and the day. *)
Definition yearBase (y : Z) : Z :=
  EPOCH - 1 + 365 * (y - 1) + (y - 1) / 4 - (y - 1) / 100 + (y - 1) / 400.

Definition monthBase (y m : Z) : Z :=
  (367 * m - 362) / 12
  + (if m <=? 2 then 0 else if isLeapYear y then -1 else -2).

(** The dates a [CalendarDate] can hold. *)
Definition valid (d : CalendarDate) : Prop :=
  1 <= month d <= 12 /\ 1 <= day d <= getDaysInMonth (year d) (month d).

End Date.

Import Date.

(** ** [../utils]: types of the grid and the helpers the composable imports *)

(** [type DayOfWeek = 0 | 1 | 2 | 3 | 4 | 5 | 6], starting with Sunday. *)
Inductive DayOfWeek : Type := Dow0 | Dow1 | Dow2 | Dow3 | Dow4 | Dow5 | Dow6.

Definition dayNumber (w : DayOfWeek) : Z :=
  match w with
  | Dow0 => 0 | Dow1 => 1 | Dow2 => 2 | Dow3 => 3
  | Dow4 => 4 | Dow5 => 5 | Dow6 => 6
  end.

(** [type Matcher = (date: DateValue) => boolean] *)
Definition Matcher : Type := CalendarDate -> bool.

(** An optional matcher called as [m?.(d)]: an absent one yields
    [undefined], which every caller reads as false. *)
Definition callMatcher (m : option Matcher) (d : CalendarDate) : bool :=
  match m with
  | Some f => f d
  | None => false
  end.

Module MonthGrid.
Record t : Type := mk { month : CalendarDate; dates : list CalendarDate }.
End MonthGrid.

Module Utils.

(** Modelled from the spec: [isAfter] of [../utils] is not among the
    sources; the spec reads it as "strictly after" under [compare]. *)
Definition isAfter (a b : CalendarDate) : bool := 0 <? compare a b.

(** Modelled from the spec: [isBefore] of [../utils] is not among the
    sources; the spec reads it as "strictly before" under [compare]. *)
Definition isBefore (a b : CalendarDate) : bool := compare a b <? 0.

(** Step 2 and step 3 of the grid algorithm walk one day at a time until
    the day of week is [target]; the spec bounds the walk by 6 steps. *)
Fixpoint walk (step : CalendarDate -> CalendarDate) (target : Z)
         (fuel : nat) (d : CalendarDate) : CalendarDate :=
  if getDayOfWeek d =? target then d
  else match fuel with
       | O => d
       | S k => walk step target k (step d)
       end.

(** Number of days from [first] to [last], both included. *)
Definition dayCount (first last : CalendarDate) : Z :=
  toJulianDay last - toJulianDay first + 1.

(** Step 4: the trailing end moves forward one week at a time until the
    grid holds 42 days; six rounds cover every start. *)
Fixpoint extendWeeks (fuel : nat) (first last : CalendarDate) : CalendarDate :=
  if 42 <=? dayCount first last then last
  else match fuel with
       | O => last
       | S k => extendWeeks k first (addDays last 7)
       end.

(** Step 5: [n] consecutive days from [d] on, ascending. *)
Fixpoint daysFrom (n : nat) (d : CalendarDate) : list CalendarDate :=
  match n with
  | O => []
  | S k => d :: daysFrom k (nextDay d)
  end.

Definition firstVisible (weekStartsOn : DayOfWeek) (monthDate : CalendarDate)
  : CalendarDate :=
  walk prevDay (dayNumber weekStartsOn) 6 (startOfMonth monthDate).

Definition lastVisible (weekStartsOn : DayOfWeek) (fixedWeeks : bool)
           (monthDate : CalendarDate) : CalendarDate :=
  let last :=
    walk nextDay ((dayNumber weekStartsOn + 6) mod 7) 6 (endOfMonth monthDate) in
  if fixedWeeks
  then extendWeeks 6 (firstVisible weekStartsOn monthDate) last
  else last.

(** Modelled from the spec: [createMonths] of [../utils] is not among the
    sources.  This is the grid of one month index, section 4.1 steps 1-5. *)
Definition createMonth (weekStartsOn : DayOfWeek) (fixedWeeks : bool)
           (dateObj : CalendarDate) (i : Z) : MonthGrid.t :=
  let monthDate := startOfMonth (addMonths dateObj i) in
  let first := firstVisible weekStartsOn monthDate in
  let last := lastVisible weekStartsOn fixedWeeks monthDate in
  MonthGrid.mk monthDate (daysFrom (Z.to_nat (dayCount first last)) first).

(** Modelled from the spec: [createMonths] of [../utils] is not among the
    sources.  One grid per month index [i] in [[0, numberOfMonths)]. *)
Definition createMonths (weekStartsOn : DayOfWeek) (fixedWeeks : bool)
           (numberOfMonths : Z) (dateObj : CalendarDate) : list MonthGrid.t :=
  map (fun i => createMonth weekStartsOn fixedWeeks dateObj (Z.of_nat i))
      (seq 0 (Z.to_nat numberOfMonths)).

End Utils.

(** ** [useCalendarState] *)

(** [selection: DateValue | DateValue[] | undefined] *)
Inductive Selection : Type :=
| NoSelection
| Single (d : CalendarDate)
| Many (ds : list CalendarDate).

Module StateProps.
Record t : Type := mk {
  isDateDisabled : option Matcher;
  isDateUnavailable : option Matcher;
  selection : Selection
}.
End StateProps.

Module CalendarState.

Definition isDateSelected (props : StateProps.t) (dateObj : CalendarDate) : bool :=
  match StateProps.selection props with
  | Many ds => existsb (fun d => isSameDay d dateObj) ds
  | NoSelection => false
  | Single d => isSameDay d dateObj
  end.

(** The [for ... of] loop of [isInvalid]: the first disabled or unavailable
    member returns true, falling off the end returns false. *)
Fixpoint anyInvalid (props : StateProps.t) (ds : list CalendarDate) : bool :=
  match ds with
  | [] => false
  | dateObj :: rest =>
      if callMatcher (StateProps.isDateDisabled props) dateObj then true
      else if callMatcher (StateProps.isDateUnavailable props) dateObj then true
      else anyInvalid props rest
  end.

Definition isInvalid (props : StateProps.t) : bool :=
  match StateProps.selection props with
  | Many ds =>
      match ds with
      | [] => false
      | _ => anyInvalid props ds
      end
  | NoSelection => false
  | Single d =>
      if callMatcher (StateProps.isDateDisabled props) d then true
      else if callMatcher (StateProps.isDateUnavailable props) d then true
      else false
  end.

End CalendarState.

(** ** [useCalendar] *)

(** [UseCalendarProps].  The object is owned by the caller: [minValue],
    [maxValue] and [disabled] are read through [toValue] at the moment of
    each read, and [dateCursor] is a ref the composable also writes. *)
Module Props.
Record t : Type := mk {
  locale : string;
  weekStartsOn : DayOfWeek;
  weekdayFormat : string;
  numberOfMonths : Z;
  minValue : option CalendarDate;
  maxValue : option CalendarDate;
  disabled : bool;
  fixedWeeks : bool;
  pagedNavigation : bool;
  isDateDisabled : option Matcher;
  isDateUnavailable : option Matcher;
  dateCursor : CalendarDate
}.

(** Writes of the owner, or of the composable, to the reactive inputs. *)
Definition setDateCursor (v : CalendarDate) (p : t) : t :=
  mk (locale p) (weekStartsOn p) (weekdayFormat p) (numberOfMonths p)
     (minValue p) (maxValue p) (disabled p) (fixedWeeks p)
     (pagedNavigation p) (isDateDisabled p) (isDateUnavailable p) v.

Definition setMinValue (v : option CalendarDate) (p : t) : t :=
  mk (locale p) (weekStartsOn p) (weekdayFormat p) (numberOfMonths p)
     v (maxValue p) (disabled p) (fixedWeeks p)
     (pagedNavigation p) (isDateDisabled p) (isDateUnavailable p) (dateCursor p).

Definition setMaxValue (v : option CalendarDate) (p : t) : t :=
  mk (locale p) (weekStartsOn p) (weekdayFormat p) (numberOfMonths p)
     (minValue p) v (disabled p) (fixedWeeks p)
     (pagedNavigation p) (isDateDisabled p) (isDateUnavailable p) (dateCursor p).

Definition setDisabled (v : bool) (p : t) : t :=
  mk (locale p) (weekStartsOn p) (weekdayFormat p) (numberOfMonths p)
     (minValue p) (maxValue p) v (fixedWeeks p)
     (pagedNavigation p) (isDateDisabled p) (isDateUnavailable p) (dateCursor p).
End Props.

(** The formatter of [./useDateFormatter], which is not among the sources:
    the three methods [headingValue] calls, each under a locale.  [toDate]
    is folded into them. *)
Record DateFormatter : Type := mkFormatter {
  fullMonthAndYear : string -> CalendarDate -> string;
  fullMonth : string -> CalendarDate -> string;
  fullYear : string -> CalendarDate -> string
}.

(** What a call of the composable's API ends in. *)
Inductive Error : Type := TypeError.

Inductive Result (A : Type) : Type :=
| Returns (a : A)
| Throws (e : Error).
Arguments Returns {A} a.
Arguments Throws {A} e.

(** The state one [useCalendar] call closes over: the props object, the
    three constants computed at construction, the [months] ref, and the
    value the [watch] on [props.dateCursor] saw last (its [oldValue]). *)
Record Calendar : Type := mkCalendar {
  props : Props.t;
  dateCursor : CalendarDate;
  minValue : option CalendarDate;
  maxValue : option CalendarDate;
  months : list MonthGrid.t;
  watched : CalendarDate
}.

Definition setMonths (ms : list MonthGrid.t) (c : Calendar) : Calendar :=
  mkCalendar (props c) (dateCursor c) (minValue c) (maxValue c) ms (watched c).

Definition setProps (p : Props.t) (c : Calendar) : Calendar :=
  mkCalendar p (dateCursor c) (minValue c) (maxValue c) (months c) (watched c).

Definition setWatched (v : CalendarDate) (c : Calendar) : Calendar :=
  mkCalendar (props c) (dateCursor c) (minValue c) (maxValue c) (months c) v.

(** [createMonths] with the four options every call site passes. *)
Definition createMonthsFor (p : Props.t) (dateObj : CalendarDate)
  : list MonthGrid.t :=
  Utils.createMonths (Props.weekStartsOn p) (Props.fixedWeeks p)
                     (Props.numberOfMonths p) dateObj.

(** Lines 85-99.  No statement of the constructor throws. *)
Definition useCalendar (p : Props.t) : Result Calendar :=
  let dateCursor := Props.dateCursor p in
  let minValue := option_map (Date.set dateCursor) (Props.minValue p) in
  let maxValue := option_map (Date.set dateCursor) (Props.maxValue p) in
  Returns (mkCalendar p dateCursor minValue maxValue
                      (createMonthsFor p dateCursor)
                      (Props.dateCursor p)).

Definition visibleMonths (c : Calendar) : list CalendarDate :=
  map MonthGrid.month (months c).

Definition isOutsideVisibleView (c : Calendar) (date : CalendarDate) : bool :=
  negb (existsb (fun m => isSameMonth date m) (visibleMonths c)).

(** [months.value[months.value.length - 1]] *)
Fixpoint lastGrid (ms : list MonthGrid.t) : option MonthGrid.t :=
  match ms with
  | [] => None
  | [g] => Some g
  | _ :: rest => lastGrid rest
  end.

(** Lines 107-114. *)
Definition isNextButtonDisabled (c : Calendar) : bool :=
  match maxValue c, lastGrid (months c) with
  | None, _ => false
  | _, None => false
  | Some maxValue, Some g =>
      if Props.disabled (props c) then true
      else
        let lastMontInView := MonthGrid.month g in
        let firstDayOfNextPage := startOfMonth (addMonths lastMontInView 1) in
        Utils.isAfter firstDayOfNextPage maxValue
  end.

(** Lines 116-123. *)
Definition isPrevButtonDisabled (c : Calendar) : bool :=
  match minValue c, months c with
  | None, _ => false
  | _, [] => false
  | Some minValue, g :: _ =>
      if Props.disabled (props c) then true
      else
        let firstMonthInView := MonthGrid.month g in
        let lastDayOfPrevPage := endOfMonth (subtractMonths firstMonthInView 1) in
        Utils.isBefore lastDayOfPrevPage minValue
  end.

(** Lines 125-130. *)
Definition isDateDisabled (c : Calendar) (dateObj : CalendarDate) : bool :=
  if callMatcher (Props.isDateDisabled (props c)) dateObj
     || Props.disabled (props c) then true
  else if match maxValue c with
          | Some maxValue => Utils.isAfter dateObj maxValue
          | None => false
          end then true
  else if match minValue c with
          | Some minValue => Utils.isBefore dateObj minValue
          | None => false
          end then true
  else false.

Definition isDateUnavailable (c : Calendar) (date : CalendarDate) : bool :=
  if callMatcher (Props.isDateUnavailable (props c)) date then true else false.

(** The step both navigation commands take. *)
Definition pageStep (p : Props.t) : Z :=
  if Props.pagedNavigation p then Props.numberOfMonths p else 1.

(** Lines 148-161.  [months.value[0].month] and [newMonths[0].month] throw
    on an empty array; the second read comes after [months.value] has been
    assigned. *)
Definition nextPage (c : Calendar) : Result unit * Calendar :=
  match months c with
  | [] => (Throws TypeError, c)
  | g :: _ =>
      let firstMonth := MonthGrid.month g in
      let newMonths :=
        createMonthsFor (props c) (addMonths firstMonth (pageStep (props c))) in
      let c1 := setMonths newMonths c in
      match newMonths with
      | [] => (Throws TypeError, c1)
      | g' :: _ =>
          (Returns tt,
           setProps (Props.setDateCursor (startOfMonth (MonthGrid.month g'))
                                         (props c1)) c1)
      end
  end.

(** Lines 163-175.  [newMonths] is computed and read, and only the cursor
    is assigned. *)
Definition prevPage (c : Calendar) : Result unit * Calendar :=
  match months c with
  | [] => (Throws TypeError, c)
  | g :: _ =>
      let firstMonth := MonthGrid.month g in
      let newMonths :=
        createMonthsFor (props c)
                        (subtractMonths firstMonth (pageStep (props c))) in
      match newMonths with
      | [] => (Throws TypeError, c)
      | g' :: _ =>
          (Returns tt,
           setProps (Props.setDateCursor (startOfMonth (MonthGrid.month g'))
                                         (props c)) c)
      end
  end.

(** Lines 178-188, the callback of the watcher. *)
Definition onDateCursorChange (value oldValue : CalendarDate) (c : Calendar)
  : Calendar :=
  if isSameMonth (Date.set (dateCursor c) value)
                 (Date.set (dateCursor c) oldValue)
  then c
  else setMonths (createMonthsFor (props c) (Date.set (dateCursor c) value)) c.

(** One run of the watcher job.  Vue queues the job when the ref is
    written and runs it once at the next flush, with the ref's value then
    and the value of the run before; two writes before a flush are one run.
    A run on an unchanged ref does not call the callback, which this
    definition reproduces because the callback does nothing on equal
    months. *)
Definition flush (c : Calendar) : Calendar :=
  let value := Props.dateCursor (props c) in
  setWatched value (onDateCursorChange value (watched c) c).

(** Lines 190-214.  The formatter is switched to [props.locale] before any
    method is called. *)
Definition headingValue (formatter : DateFormatter) (c : Calendar) : string :=
  match months c with
  | [] => EmptyString
  | [g] => fullMonthAndYear formatter (Props.locale (props c)) (MonthGrid.month g)
  | g :: rest =>
      let l := Props.locale (props c) in
      let startMonth := MonthGrid.month g in
      let endMonth :=
        match lastGrid rest with
        | Some e => MonthGrid.month e
        | None => startMonth
        end in
      let startMonthName := fullMonth formatter l startMonth in
      let endMonthName := fullMonth formatter l endMonth in
      let startMonthYear := fullYear formatter l startMonth in
      let endMonthYear := fullYear formatter l endMonth in
      if String.eqb startMonthYear endMonthYear
      then (startMonthName ++ " - " ++ endMonthName ++ " " ++ endMonthYear)%string
      else (startMonthName ++ " " ++ startMonthYear ++ " - "
            ++ endMonthName ++ " " ++ endMonthYear)%string
  end.

(** What can happen to a controller after construction: the two commands
    (whatever they end in), a run of the watcher, and a write of the owner
    to one of the reactive inputs. *)
Inductive step : Calendar -> Calendar -> Prop :=
| step_next c : step c (snd (nextPage c))
| step_prev c : step c (snd (prevPage c))
| step_flush c : step c (flush c)
| step_cursor c v : step c (setProps (Props.setDateCursor v (props c)) c)
| step_min c v : step c (setProps (Props.setMinValue v (props c)) c)
| step_max c v : step c (setProps (Props.setMaxValue v (props c)) c)
| step_disabled c v : step c (setProps (Props.setDisabled v (props c)) c).

Inductive reachableFrom (c0 : Calendar) : Calendar -> Prop :=
| reach_here : reachableFrom c0 c0
| reach_step c c' : reachableFrom c0 c -> step c c' -> reachableFrom c0 c'.

(** The states of the controllers [useCalendar] constructs. *)
Definition reachable (c : Calendar) : Prop :=
  exists p c0, useCalendar p = Returns c0 /\ reachableFrom c0 c.

(** ** Vocabulary of the statements *)

(** Each date of the sequence is the calendar day after the one before it,
    as [compare] counts days. *)
Fixpoint ascendingByOneDay (l : list CalendarDate) : bool :=
  match l with
  | a :: (b :: _) as rest => (compare b a =? 1) && ascendingByOneDay rest
  | _ => true
  end.

(** A date that stands for a month: its first day. *)
Definition firstOfMonth (d : CalendarDate) : Prop :=
  1 <= month d <= 12 /\ day d = 1.

(** The fields of the props object no step writes. *)
Definition sameConfig (p q : Props.t) : Prop :=
  Props.locale p = Props.locale q
  /\ Props.weekStartsOn p = Props.weekStartsOn q
  /\ Props.numberOfMonths p = Props.numberOfMonths q
  /\ Props.fixedWeeks p = Props.fixedWeeks q
  /\ Props.pagedNavigation p = Props.pagedNavigation q
  /\ Props.isDateDisabled p = Props.isDateDisabled q
  /\ Props.isDateUnavailable p = Props.isDateUnavailable q.

(** What every step keeps: the configuration, the three constants of the
    construction, and a window that is some [createMonths] result. *)
Definition keeps (c0 c : Calendar) : Prop :=
  sameConfig (props c0) (props c)
  /\ dateCursor c = dateCursor c0
  /\ minValue c = minValue c0
  /\ maxValue c = maxValue c0
  /\ exists ref, months c = createMonthsFor (props c) ref.

(** The first visible month, when there is one. *)
Definition firstVisibleMonth (c : Calendar) : option CalendarDate :=
  hd_error (visibleMonths c).

(** What the owner reads from the cursor ref. *)
Definition cursor (c : Calendar) : CalendarDate := Props.dateCursor (props c).

(** The controller a construction returns. *)
Definition constructed (p : Props.t) : Calendar :=
  match useCalendar p with
  | Returns c => c
  | Throws _ =>
      mkCalendar p (Props.dateCursor p) None None [] (Props.dateCursor p)
  end.

(** ** Sample inputs *)

(** One visible month, single-month steps, no bounds, cursor on
    15 June 2024. *)
Definition sampleProps : Props.t :=
  Props.mk "en" Dow0 "short" 1 None None false false false None None
           (mkDate 2024 6 15).

(** The same with the calendar globally disabled. *)
Definition disabledProps : Props.t := Props.setDisabled true sampleProps.

(** A configuration with no month to show. *)
Definition zeroMonthsProps : Props.t :=
  Props.mk "en" Dow0 "short" 0 None None false false false None None
           (mkDate 2024 6 15).

(** Two visible months from December 2024 on, paged, between two bounds. *)
Definition winterProps : Props.t :=
  Props.mk "en" Dow1 "short" 2 (Some (mkDate 2024 11 20))
           (Some (mkDate 2025 1 31)) false true true None None
           (mkDate 2024 12 10).

(** An English formatter: month names and decimal years. *)
Definition englishMonth (d : CalendarDate) : string :=
  nth (Z.to_nat (month d - 1))
      ["January"; "February"; "March"; "April"; "May"; "June"; "July";
       "August"; "September"; "October"; "November"; "December"]%string
      EmptyString.

Definition decimalYear (d : CalendarDate) : string :=
  NilZero.string_of_int (Z.to_int (year d)).

Definition englishFormatter : DateFormatter :=
  mkFormatter
    (fun _ d => (englishMonth d ++ " " ++ decimalYear d)%string)
    (fun _ d => englishMonth d)
    (fun _ d => decimalYear d).

(** ** The weekday header and the settled states *)

(** [formatter.dayOfWeek(toDate(x), format)] for the value [x] an index
    into [dates] yields: a date, or [undefined] past the end of the array.
    [toDate] and the formatter are not among the sources, so what the call
    ends in is left to the parameter. *)
Definition WeekdayNamer : Type := option CalendarDate -> string -> Result string.

(** The [for] loop of [weekdays]: [remaining] rounds from index [idx] on,
    each pushing one name. *)
Fixpoint pushWeekdays (dayOfWeek : WeekdayNamer) (format : string)
         (dates : list CalendarDate) (idx remaining : nat)
         (names : list string) : Result (list string) :=
  match remaining with
  | O => Returns names
  | S r =>
      match dayOfWeek (nth_error dates idx) format with
      | Returns name =>
          pushWeekdays dayOfWeek format dates (S idx) r (names ++ [name])
      | Throws e => Throws e
      end
  end.

(** Lines 137-146. *)
Definition weekdays (dayOfWeek : WeekdayNamer) (c : Calendar)
  : Result (list string) :=
  match months c with
  | [] => Returns []
  | g :: _ =>
      pushWeekdays dayOfWeek (Props.weekdayFormat (props c))
                   (MonthGrid.dates g) 0 7 []
  end.

(** A write of the owner to the cursor ref. *)
Definition writeCursor (v : CalendarDate) (c : Calendar) : Calendar :=
  setProps (Props.setDateCursor v (props c)) c.

(** The states a controller with at least one month goes through when the
    watcher runs after every command and every write to the cursor, as it
    does when each of them is a separate event of the page. *)
Inductive settled : Calendar -> Prop :=
| settled_init p :
    1 <= Props.numberOfMonths p -> valid (Props.dateCursor p) ->
    settled (constructed p)
| settled_next c : settled c -> settled (flush (snd (nextPage c)))
| settled_prev c : settled c -> settled (flush (snd (prevPage c)))
| settled_cursor c v :
    settled c -> valid v -> settled (flush (writeCursor v c))
| settled_flush c : settled c -> settled (flush c)
| settled_min c v :
    settled c -> settled (setProps (Props.setMinValue v (props c)) c)
| settled_max c v :
    settled c -> settled (setProps (Props.setMaxValue v (props c)) c)
| settled_disabled c v :
    settled c -> settled (setProps (Props.setDisabled v (props c)) c).

(** Months counted from year 0: the number [addMonths] adds to. *)
Definition monthIndex (d : CalendarDate) : Z := year d * 12 + (month d - 1).

(** The first day of the month of a given index. *)
Definition monthOfIndex (k : Z) : CalendarDate := mkDate (k / 12) (k mod 12 + 1) 1.

(** The last visible month, when there is one. *)
Definition lastVisibleMonth (c : Calendar) : option CalendarDate :=
  option_map MonthGrid.month (lastGrid (months c)).

(** The state a page turn to the month [target] ends in once the watcher
    has run. *)
Definition turned (target : CalendarDate) (c : Calendar) : Calendar :=
  mkCalendar (Props.setDateCursor target (props c)) (dateCursor c)
             (minValue c) (maxValue c)
             (createMonthsFor (props c) target) target.

(** The years the library's Gregorian calendar holds in its current era:
    while every date a command computes has such a year, [add] and
    [subtract] neither clamp nor change era. *)
Definition inYears (d : CalendarDate) : Prop := 1 <= year d <= 9999.

(** A predicate that gives dates of the same day the same answer, which
    is how [isDateSelected] compares dates. *)
Definition sameDayInvariant (m : option Matcher) : Prop :=
  forall a b, isSameDay a b = true -> callMatcher m a = callMatcher m b.

(** One visible month under the locale "es". *)
Definition spanishProps : Props.t :=
  Props.mk "es" Dow1 "short" 1 None None false false false None None
           (mkDate 2024 6 15).

(** Three visible months from November 2024 on. *)
Definition autumnProps : Props.t :=
  Props.mk "en" Dow0 "short" 3 None None false false false None None
           (mkDate 2024 11 5).

(** A formatter in the manner of [Intl.DateTimeFormat] for "es": the
    month-and-year label is not the month label, a space and the year
    label. *)
Definition spanishMonth (d : CalendarDate) : string :=
  nth (Z.to_nat (month d - 1))
      ["enero"; "febrero"; "marzo"; "abril"; "mayo"; "junio"; "julio";
       "agosto"; "septiembre"; "octubre"; "noviembre"; "diciembre"]%string
      EmptyString.

Definition spanishFormatter : DateFormatter :=
  mkFormatter
    (fun _ d => (spanishMonth d ++ " de " ++ decimalYear d)%string)
    (fun _ d => spanishMonth d)
    (fun _ d => decimalYear d).

(** * Properties *)

(** ** Calendar arithmetic *)

Section DateFacts.

Ltac month_cases m :=
  let H := fresh "Hm" in
  assert (H : m = 1 \/ m = 2 \/ m = 3 \/ m = 4 \/ m = 5 \/ m = 6 \/ m = 7
              \/ m = 8 \/ m = 9 \/ m = 10 \/ m = 11 \/ m = 12) by lia;
  repeat (destruct H as [H | H]; [subst m | ]); [ .. | subst m].

Lemma getDaysInMonth_bounds y m : 28 <= getDaysInMonth y m <= 31.
Proof.
  unfold getDaysInMonth.
  generalize (Z.to_nat (m - 1)) as k; intro k.
  destruct (isLeapYear y);
    repeat (destruct k as [| k]; simpl; try lia).
Qed.

Lemma getDaysInMonth_december y : getDaysInMonth y 12 = 31.
Proof. unfold getDaysInMonth; destruct (isLeapYear y); reflexivity. Qed.

Lemma leap_day_of_year y :
  y / 4 - y / 100 + y / 400
  - ((y - 1) / 4 - (y - 1) / 100 + (y - 1) / 400)
  = if isLeapYear y then 1 else 0.
Proof.
  unfold isLeapYear.
  destruct (Z.eqb_spec (y mod 4) 0), (Z.eqb_spec (y mod 100) 0),
    (Z.eqb_spec (y mod 400) 0); simpl;
    Z.div_mod_to_equations; lia.
Qed.

Lemma valid_nextDay d : valid d -> valid (nextDay d).
Proof.
  destruct d as [y m dd]; unfold valid, nextDay; simpl; intros [Hmo Hd].
  destruct (Z.ltb_spec dd (getDaysInMonth y m)); simpl; [lia |].
  destruct (Z.ltb_spec m 12); simpl.
  - pose proof (getDaysInMonth_bounds y (m + 1)); lia.
  - pose proof (getDaysInMonth_bounds (y + 1) 1); lia.
Qed.

Lemma valid_prevDay d : valid d -> valid (prevDay d).
Proof.
  destruct d as [y m dd]; unfold valid, prevDay; simpl; intros [Hmo Hd].
  destruct (Z.ltb_spec 1 dd); simpl; [lia |].
  destruct (Z.ltb_spec 1 m); simpl.
  - pose proof (getDaysInMonth_bounds y (m - 1)); lia.
  - rewrite getDaysInMonth_december; lia.
Qed.

Lemma toJulianDay_split y m dd :
  toJulianDay (mkDate y m dd) = yearBase y + monthBase y m + dd.
Proof. unfold toJulianDay, yearBase, monthBase; cbn [year month day]; ring. Qed.

Lemma monthBase_succ y m :
  1 <= m < 12 -> monthBase y (m + 1) = monthBase y m + getDaysInMonth y m.
Proof.
  intros Hm. unfold monthBase, getDaysInMonth.
  month_cases m; try (exfalso; lia); destruct (isLeapYear y); reflexivity.
Qed.

Lemma yearBase_succ y :
  yearBase (y + 1) + monthBase (y + 1) 1 = yearBase y + monthBase y 12 + 31.
Proof.
  pose proof (leap_day_of_year y) as Hl.
  unfold yearBase, monthBase.
  replace (y + 1 - 1) with y by ring.
  change ((367 * 1 - 362) / 12) with 0.
  change ((367 * 12 - 362) / 12) with 336.
  change (1 <=? 2) with true. change (12 <=? 2) with false. cbv iota.
  revert Hl.
  generalize ((y - 1) / 4), ((y - 1) / 100), ((y - 1) / 400),
    (y / 4), (y / 100), (y / 400), EPOCH; intros.
  destruct (isLeapYear y); lia.
Qed.

Lemma toJulianDay_nextDay d :
  valid d -> toJulianDay (nextDay d) = toJulianDay d + 1.
Proof.
  destruct d as [y m dd]; unfold valid, nextDay; cbn [year month day].
  intros [Hmo Hd].
  destruct (Z.ltb_spec dd (getDaysInMonth y m)) as [Hlt | Hge].
  - rewrite !toJulianDay_split. ring.
  - assert (Hdd : dd = getDaysInMonth y m) by lia. subst dd. clear Hd Hge.
    destruct (Z.ltb_spec m 12) as [Hm12 | Hm12]; rewrite !toJulianDay_split.
    + rewrite monthBase_succ by lia. ring.
    + assert (m = 12) by lia. subst m.
      rewrite getDaysInMonth_december, yearBase_succ. ring.
Qed.

Lemma prevDay_nextDay d : valid d -> nextDay (prevDay d) = d.
Proof.
  destruct d as [y m dd]; unfold valid, prevDay, nextDay; simpl; intros [Hmo Hd].
  destruct (Z.ltb_spec 1 dd) as [H1 | H1]; simpl.
  - destruct (Z.ltb_spec (dd - 1) (getDaysInMonth y m)); [| lia].
    f_equal; lia.
  - assert (dd = 1) by lia. subst dd.
    destruct (Z.ltb_spec 1 m) as [H2 | H2]; simpl.
    + rewrite Z.ltb_irrefl.
      destruct (Z.ltb_spec (m - 1) 12); [| lia]. f_equal; lia.
    + assert (m = 1) by lia. subst m. simpl.
      rewrite getDaysInMonth_december. simpl. f_equal; lia.
Qed.

Lemma toJulianDay_prevDay d :
  valid d -> toJulianDay (prevDay d) = toJulianDay d - 1.
Proof.
  intros Hv.
  pose proof (toJulianDay_nextDay (prevDay d) (valid_prevDay d Hv)) as H.
  rewrite (prevDay_nextDay d Hv) in H. lia.
Qed.

Lemma addDays_spec n : forall d,
  valid d ->
  valid (addDays d n) /\ toJulianDay (addDays d n) = toJulianDay d + Z.of_nat n.
Proof.
  induction n as [| n IH]; intros d Hv; simpl addDays.
  - split; [assumption | lia].
  - destruct (IH (nextDay d) (valid_nextDay d Hv)) as [Hv' Hj].
    split; [assumption |]. rewrite Hj, toJulianDay_nextDay by assumption. lia.
Qed.

Lemma valid_constrainMonthDay d : valid (constrainMonthDay d).
Proof.
  unfold valid, constrainMonthDay; cbn [year month day].
  pose proof (getDaysInMonth_bounds (year d) (Z.max 1 (Z.min 12 (month d)))).
  lia.
Qed.

Lemma valid_addMonths d n : valid (addMonths d n).
Proof. apply valid_constrainMonthDay. Qed.

Lemma valid_startOfMonth d : 1 <= month d <= 12 -> valid (startOfMonth d).
Proof.
  intros Hm. unfold valid, startOfMonth; cbn [year month day].
  pose proof (getDaysInMonth_bounds (year d) (month d)). lia.
Qed.

Lemma valid_endOfMonth d : 1 <= month d <= 12 -> valid (endOfMonth d).
Proof.
  intros Hm. unfold valid, endOfMonth; cbn [year month day].
  pose proof (getDaysInMonth_bounds (year d) (month d)). lia.
Qed.

Lemma toJulianDay_endOfMonth d :
  toJulianDay (endOfMonth d)
  = toJulianDay (startOfMonth d) + getDaysInMonth (year d) (month d) - 1.
Proof.
  unfold endOfMonth, startOfMonth. rewrite !toJulianDay_split. ring.
Qed.

End DateFacts.

(** ** The month grid *)

Section GridFacts.

Lemma dayNumber_range w : 0 <= dayNumber w < 7.
Proof. destruct w; simpl; lia. Qed.

(** A walk by single days, forward ([delta = 1]) or backward
    ([delta = -1]), stops on the wanted day of week after the expected
    number of steps when the fuel allows that many. *)
Lemma walk_spec step delta target :
  (delta = 1 \/ delta = -1) ->
  0 <= target < 7 ->
  (forall d, valid d ->
             valid (step d) /\ toJulianDay (step d) = toJulianDay d + delta) ->
  forall fuel d,
    valid d ->
    (delta * (target - getDayOfWeek d)) mod 7 <= Z.of_nat fuel ->
    valid (Utils.walk step target fuel d)
    /\ toJulianDay (Utils.walk step target fuel d)
       = toJulianDay d + delta * ((delta * (target - getDayOfWeek d)) mod 7)
    /\ getDayOfWeek (Utils.walk step target fuel d) = target.
Proof.
  intros Hdelta Ht Hstep.
  induction fuel as [| fuel IH]; intros d Hv Hk; simpl Utils.walk;
    destruct (Z.eqb_spec (getDayOfWeek d) target) as [He | Hne].
  - rewrite He, Z.sub_diag, Z.mul_0_r, Zmod_0_l. split; [| split]; [assumption | lia | reflexivity].
  - exfalso. unfold getDayOfWeek in *.
    destruct Hdelta; subst delta; Z.div_mod_to_equations; lia.
  - rewrite He, Z.sub_diag, Z.mul_0_r, Zmod_0_l. split; [| split]; [assumption | lia | reflexivity].
  - destruct (Hstep d Hv) as [Hv' Hj].
    assert (Hk' : (delta * (target - getDayOfWeek (step d))) mod 7
                  = (delta * (target - getDayOfWeek d)) mod 7 - 1).
    { unfold getDayOfWeek in *. rewrite Hj.
      destruct Hdelta; subst delta; Z.div_mod_to_equations; lia. }
    destruct (IH (step d) Hv') as (Hv2 & Hj2 & Hd2); [lia |].
    split; [| split]; [assumption | | assumption].
    rewrite Hj2, Hk', Hj. destruct Hdelta; subst delta; lia.
Qed.

Lemma firstVisible_spec ws md :
  1 <= month md <= 12 ->
  let f := Utils.firstVisible ws md in
  valid f
  /\ toJulianDay f
     = toJulianDay (startOfMonth md)
       - (getDayOfWeek (startOfMonth md) - dayNumber ws) mod 7
  /\ getDayOfWeek f = dayNumber ws.
Proof.
  intros Hm f.
  pose proof (dayNumber_range ws) as Hw.
  destruct (walk_spec prevDay (-1) (dayNumber ws) (or_intror eq_refl) Hw
              (fun d Hv => conj (valid_prevDay d Hv)
                                (eq_trans (toJulianDay_prevDay d Hv) eq_refl))
              6%nat (startOfMonth md) (valid_startOfMonth md Hm))
    as (Hv & Hj & Hd).
  - assert (H7 : 0 <= (-1 * (dayNumber ws - getDayOfWeek (startOfMonth md))) mod 7 < 7)
      by (apply Z.mod_pos_bound; lia).
    lia.
  - split; [| split]; [exact Hv | | exact Hd].
    fold f in Hj |- *. unfold f, Utils.firstVisible. rewrite Hj.
    replace (-1 * (dayNumber ws - getDayOfWeek (startOfMonth md)))
      with (getDayOfWeek (startOfMonth md) - dayNumber ws) by ring.
    ring.
Qed.

Lemma naturalLast_spec ws md :
  1 <= month md <= 12 ->
  let target := (dayNumber ws + 6) mod 7 in
  let l := Utils.walk nextDay target 6 (endOfMonth md) in
  valid l
  /\ toJulianDay l
     = toJulianDay (endOfMonth md)
       + (target - getDayOfWeek (endOfMonth md)) mod 7
  /\ getDayOfWeek l = target.
Proof.
  intros Hm target l.
  assert (Ht : 0 <= target < 7) by (apply Z.mod_pos_bound; lia).
  destruct (walk_spec nextDay 1 target (or_introl eq_refl) Ht
              (fun d Hv => conj (valid_nextDay d Hv) (toJulianDay_nextDay d Hv))
              6%nat (endOfMonth md) (valid_endOfMonth md Hm))
    as (Hv & Hj & Hd).
  - assert (H7 : 0 <= (1 * (target - getDayOfWeek (endOfMonth md))) mod 7 < 7)
      by (apply Z.mod_pos_bound; lia).
    lia.
  - split; [| split]; [exact Hv | | exact Hd].
    unfold l. rewrite Hj, !Z.mul_1_l. reflexivity.
Qed.

(** The natural tiling of a month: whole weeks, four to six of them. *)
Lemma natural_dayCount ws md :
  1 <= month md <= 12 ->
  let c := Utils.dayCount (Utils.firstVisible ws md)
                          (Utils.lastVisible ws false md) in
  c mod 7 = 0 /\ 28 <= c <= 42.
Proof.
  intros Hm c.
  destruct (firstVisible_spec ws md Hm) as (_ & Hjf & _).
  destruct (naturalLast_spec ws md Hm) as (_ & Hjl & _).
  pose proof (dayNumber_range ws) as Hw.
  pose proof (getDaysInMonth_bounds (year md) (month md)) as Hdim.
  unfold c, Utils.dayCount, Utils.lastVisible.
  rewrite Hjf, Hjl, toJulianDay_endOfMonth.
  unfold getDayOfWeek. rewrite toJulianDay_endOfMonth.
  revert Hdim Hw.
  generalize (getDaysInMonth (year md) (month md)),
    (toJulianDay (startOfMonth md)), (dayNumber ws).
  intros dim j w Hdim Hw.
  assert (Hmod : (j + dim - 1 + ((w + 6) mod 7 - (j + dim - 1 + 1) mod 7) mod 7
                  - (j - ((j + 1) mod 7 - w) mod 7) + 1) mod 7 = 0)
    by (Z.div_mod_to_equations; lia).
  split; [exact Hmod |].
  revert Hmod. Z.div_mod_to_equations. lia.
Qed.

Lemma extendWeeks_spec first : forall fuel last,
  valid last ->
  Utils.dayCount first last mod 7 = 0 ->
  Utils.dayCount first last <= 42 ->
  42 - Utils.dayCount first last <= 7 * Z.of_nat fuel ->
  valid (Utils.extendWeeks fuel first last)
  /\ Utils.dayCount first (Utils.extendWeeks fuel first last) = 42.
Proof.
  induction fuel as [| fuel IH]; intros last Hv Hmod Hle Hfuel;
    cbn [Utils.extendWeeks];
    destruct (Z.leb_spec 42 (Utils.dayCount first last)) as [H42 | H42].
  - split; [assumption | lia].
  - lia.
  - split; [assumption | lia].
  - destruct (addDays_spec 7 last Hv) as [Hv7 Hj7].
    assert (Hc : Utils.dayCount first (addDays last 7)
                 = Utils.dayCount first last + 7)
      by (unfold Utils.dayCount; rewrite Hj7; lia).
    apply IH; [assumption | | | ]; rewrite Hc.
    + replace (Utils.dayCount first last + 7)
        with (Utils.dayCount first last + 1 * 7) by ring.
      rewrite Z_mod_plus_full. exact Hmod.
    + revert Hmod H42. generalize (Utils.dayCount first last).
      intros c Hmod H42. Z.div_mod_to_equations. lia.
    + lia.
Qed.

Lemma lastVisible_spec ws fw md :
  1 <= month md <= 12 ->
  let c := Utils.dayCount (Utils.firstVisible ws md)
                          (Utils.lastVisible ws fw md) in
  c mod 7 = 0 /\ 28 <= c <= 42 /\ (fw = true -> c = 42).
Proof.
  intros Hm. destruct fw.
  - destruct (natural_dayCount ws md Hm) as [Hmod Hrange].
    destruct (naturalLast_spec ws md Hm) as (Hv & _ & _).
    unfold Utils.lastVisible in *.
    destruct (extendWeeks_spec (Utils.firstVisible ws md) 6 _ Hv Hmod)
      as [_ H42]; [lia | simpl Z.of_nat; lia |].
    cbv zeta. rewrite H42. repeat split; try reflexivity; lia.
  - destruct (natural_dayCount ws md Hm) as [Hmod Hrange].
    cbv zeta. repeat split; try assumption; try lia.
Qed.

Lemma length_daysFrom n : forall d, List.length (Utils.daysFrom n d) = n.
Proof. induction n; intros d; simpl; [reflexivity | now rewrite IHn]. Qed.

Lemma daysFrom_valid n : forall d,
  valid d -> Forall valid (Utils.daysFrom n d).
Proof.
  induction n as [| n IH]; intros d Hv; simpl; constructor;
    [assumption | apply IH, valid_nextDay, Hv].
Qed.

Lemma daysFrom_ascending n : forall d,
  valid d -> ascendingByOneDay (Utils.daysFrom n d) = true.
Proof.
  induction n as [| n IH]; intros d Hv; [reflexivity |].
  specialize (IH (nextDay d) (valid_nextDay d Hv)).
  simpl. destruct n as [| n]; [reflexivity |].
  simpl in IH |- *. rewrite IH, andb_true_r.
  unfold compare. rewrite toJulianDay_nextDay by assumption.
  apply Z.eqb_eq. ring.
Qed.

Lemma daysFrom_not_before n : forall d x,
  valid d -> In x (Utils.daysFrom n d) -> toJulianDay d <= toJulianDay x.
Proof.
  induction n as [| n IH]; intros d x Hv Hin; simpl in Hin; [contradiction |].
  destruct Hin as [<- | Hin]; [lia |].
  apply IH in Hin; [| apply valid_nextDay, Hv].
  rewrite toJulianDay_nextDay in Hin by assumption. lia.
Qed.

Lemma daysFrom_NoDup n : forall d, valid d -> NoDup (Utils.daysFrom n d).
Proof.
  induction n as [| n IH]; intros d Hv; simpl; constructor.
  - intros Hin. apply daysFrom_not_before in Hin; [| apply valid_nextDay, Hv].
    rewrite toJulianDay_nextDay in Hin by assumption. lia.
  - apply IH, valid_nextDay, Hv.
Qed.

Lemma createMonth_shape ws fw ref i :
  let g := Utils.createMonth ws fw ref i in
  (List.length (MonthGrid.dates g) mod 7 = 0)%nat
  /\ Forall valid (MonthGrid.dates g)
  /\ ascendingByOneDay (MonthGrid.dates g) = true
  /\ NoDup (MonthGrid.dates g)
  /\ (if fw then List.length (MonthGrid.dates g) = 42%nat
      else (28 <= List.length (MonthGrid.dates g) <= 42)%nat).
Proof.
  intros g. unfold g, Utils.createMonth; cbn [MonthGrid.dates].
  set (md := startOfMonth (addMonths ref i)).
  assert (Hm : 1 <= month md <= 12) by (apply (valid_addMonths ref i)).
  destruct (firstVisible_spec ws md Hm) as (Hvf & _ & _).
  destruct (lastVisible_spec ws fw md Hm) as (Hmod & Hrange & Hfix).
  rewrite length_daysFrom.
  revert Hmod Hrange Hfix.
  generalize (Utils.dayCount (Utils.firstVisible ws md)
                             (Utils.lastVisible ws fw md)).
  intros c Hmod Hrange Hfix.
  assert (Hc : c = 28 \/ c = 35 \/ c = 42) by (Z.div_mod_to_equations; lia).
  split; [| split; [| split; [| split]]].
  - destruct Hc as [-> | [-> | ->]]; reflexivity.
  - apply daysFrom_valid, Hvf.
  - apply daysFrom_ascending, Hvf.
  - apply daysFrom_NoDup, Hvf.
  - destruct fw.
    + rewrite Hfix by reflexivity. reflexivity.
    + destruct Hc as [-> | [-> | ->]]; simpl; lia.
Qed.


End GridFacts.

(** ** The controller *)

Section ControllerFacts.

Lemma addMonths_first d n : day d = 1 -> firstOfMonth (addMonths d n).
Proof.
  intros Hd. unfold firstOfMonth, addMonths, balanceYearMonth, constrainMonthDay.
  cbn [year month day]. rewrite Hd.
  set (t := year d * 12 + (month d + n - 1)).
  pose proof (Z.mod_pos_bound t 12 ltac:(lia)) as Ht.
  pose proof (getDaysInMonth_bounds (t / 12) (Z.max 1 (Z.min 12 (t mod 12 + 1)))).
  lia.
Qed.

Lemma addMonths_0 d : valid d -> addMonths d 0 = d.
Proof.
  destruct d as [y m dd]. unfold valid, addMonths, balanceYearMonth,
    constrainMonthDay; cbn [year month day]. intros [Hm Hd].
  assert (Hy : (y * 12 + (m + 0 - 1)) / 12 = y)
    by (Z.div_mod_to_equations; lia).
  assert (Hmo : (y * 12 + (m + 0 - 1)) mod 12 + 1 = m)
    by (Z.div_mod_to_equations; lia).
  rewrite Hy, Hmo.
  replace (Z.max 1 (Z.min 12 m)) with m by lia.
  f_equal. lia.
Qed.

Lemma firstOfMonth_valid d : firstOfMonth d -> valid d.
Proof.
  intros [Hm Hd]. split; [exact Hm |].
  pose proof (getDaysInMonth_bounds (year d) (month d)). lia.
Qed.

Lemma startOfMonth_first d : firstOfMonth d -> startOfMonth d = d.
Proof. destruct d; unfold firstOfMonth, startOfMonth; simpl; intros [_ ->]; reflexivity. Qed.

Lemma firstOfMonth_startOfMonth d : 1 <= month d <= 12 -> firstOfMonth (startOfMonth d).
Proof. intros Hm; split; [exact Hm | reflexivity]. Qed.

(** Months add up on first-of-month dates: no day is ever clamped. *)
Lemma addMonths_addMonths d a b :
  firstOfMonth d -> addMonths (addMonths d a) b = addMonths d (a + b).
Proof.
  destruct d as [y m dd]. unfold firstOfMonth; cbn [year month day].
  intros [Hm ->].
  unfold addMonths, balanceYearMonth, constrainMonthDay; cbn [year month day].
  set (t := y * 12 + (m + a - 1)).
  set (u := y * 12 + (m + (a + b) - 1)).
  pose proof (Z.mod_pos_bound t 12 ltac:(lia)) as Ht.
  pose proof (Z.mod_pos_bound u 12 ltac:(lia)) as Hu.
  replace (Z.max 1 (Z.min 12 (t mod 12 + 1))) with (t mod 12 + 1) by lia.
  replace (Z.max 1 (Z.min 12 (u mod 12 + 1))) with (u mod 12 + 1) by lia.
  pose proof (getDaysInMonth_bounds (t / 12) (t mod 12 + 1)) as Hdt.
  replace (Z.max 1 (Z.min (getDaysInMonth (t / 12) (t mod 12 + 1)) 1))
    with 1 by lia.
  assert (Htu : t / 12 * 12 + (t mod 12 + 1 + b - 1) = u)
    by (unfold t, u; Z.div_mod_to_equations; lia).
  rewrite Htu.
  replace (Z.max 1 (Z.min 12 (u mod 12 + 1))) with (u mod 12 + 1) by lia.
  reflexivity.
Qed.

Lemma createMonths_nil ws fw n d : n < 1 -> Utils.createMonths ws fw n d = [].
Proof.
  intros Hn. unfold Utils.createMonths.
  replace (Z.to_nat n) with 0%nat by lia. reflexivity.
Qed.

Lemma createMonths_cons ws fw n d :
  1 <= n ->
  exists rest,
    Utils.createMonths ws fw n d = Utils.createMonth ws fw d 0 :: rest.
Proof.
  intros Hn. unfold Utils.createMonths.
  destruct (Z.to_nat n) as [| k] eqn:Hk; [lia |].
  simpl. eexists. reflexivity.
Qed.

Lemma createMonths_head ws fw n d g rest :
  Utils.createMonths ws fw n d = g :: rest ->
  1 <= n /\ MonthGrid.month g = startOfMonth (addMonths d 0).
Proof.
  intros H. destruct (Z.ltb_spec n 1) as [Hlt | Hge].
  - rewrite createMonths_nil in H by assumption. discriminate.
  - split; [exact Hge |].
    destruct (createMonths_cons ws fw n d Hge) as [rest' Hc].
    rewrite Hc in H. injection H as <- _. reflexivity.
Qed.

Lemma createMonths_head_first ws fw n d g rest :
  Utils.createMonths ws fw n d = g :: rest -> firstOfMonth (MonthGrid.month g).
Proof.
  intros H. apply createMonths_head in H. destruct H as [_ ->].
  apply firstOfMonth_startOfMonth, (valid_addMonths d 0).
Qed.

Lemma createMonthsFor_config p q d :
  sameConfig p q -> createMonthsFor p d = createMonthsFor q d.
Proof.
  intros (_ & Hw & Hn & Hf & _). unfold createMonthsFor.
  rewrite Hw, Hn, Hf. reflexivity.
Qed.

Lemma sameConfig_refl p : sameConfig p p.
Proof. repeat split. Qed.

Lemma useCalendar_keeps p c : useCalendar p = Returns c -> keeps c c.
Proof.
  unfold useCalendar. intros H. injection H as <-.
  unfold keeps; cbn [props dateCursor minValue maxValue months].
  repeat split. eexists. reflexivity.
Qed.

Lemma sameConfig_trans p q r : sameConfig p q -> sameConfig q r -> sameConfig p r.
Proof.
  unfold sameConfig. intros (A1 & A2 & A3 & A4 & A5 & A6 & A7)
                            (B1 & B2 & B3 & B4 & B5 & B6 & B7).
  repeat split; congruence.
Qed.

Lemma keeps_next c0 c c' :
  keeps c0 c ->
  sameConfig (props c) (props c') ->
  dateCursor c' = dateCursor c ->
  minValue c' = minValue c ->
  maxValue c' = maxValue c ->
  (exists ref, months c' = createMonthsFor (props c) ref) ->
  keeps c0 c'.
Proof.
  intros (Hcfg & Hdc & Hmin & Hmax & _) Hcfg' Hdc' Hmin' Hmax' (ref & Hms).
  unfold keeps. split; [eapply sameConfig_trans; eassumption |].
  repeat split; try congruence.
  exists ref. rewrite Hms. apply createMonthsFor_config, Hcfg'.
Qed.

Lemma step_keeps c0 c c' : keeps c0 c -> step c c' -> keeps c0 c'.
Proof.
  intros Hk Hstep.
  assert (Hold : exists ref, months c = createMonthsFor (props c) ref)
    by apply Hk.
  destruct Hstep.
  - unfold nextPage. destruct (months c) as [| g ms] eqn:Hm0; cbn [snd].
    + exact Hk.
    + destruct (createMonthsFor (props c) _) as [| g' ms'] eqn:Hnew; cbn [snd];
        (eapply keeps_next; [exact Hk | repeat split .. |]);
        cbn [months setMonths setProps]; eexists; symmetry; exact Hnew.
  - unfold prevPage. destruct (months c) as [| g ms] eqn:Hm0; cbn [snd].
    + exact Hk.
    + destruct (createMonthsFor (props c) _) as [| g' ms'] eqn:Hnew; cbn [snd].
      * exact Hk.
      * eapply keeps_next; [exact Hk | repeat split .. |].
        cbn [months setProps]. rewrite Hm0. exact Hold.
  - unfold flush, onDateCursorChange.
    destruct (isSameMonth _ _);
      (eapply keeps_next; [exact Hk | repeat split .. |]);
      cbn [months setMonths setWatched]; [exact Hold | eexists; reflexivity].
  - eapply keeps_next; [exact Hk | repeat split .. | exact Hold].
  - eapply keeps_next; [exact Hk | repeat split .. | exact Hold].
  - eapply keeps_next; [exact Hk | repeat split .. | exact Hold].
  - eapply keeps_next; [exact Hk | repeat split .. | exact Hold].
Qed.

Lemma reachableFrom_keeps c0 c : keeps c0 c0 -> reachableFrom c0 c -> keeps c0 c.
Proof.
  intros H0 Hr. induction Hr as [| c c' _ IH Hs]; [exact H0 |].
  eapply step_keeps; eassumption.
Qed.

Lemma reachable_window c g rest :
  reachable c -> months c = g :: rest ->
  1 <= Props.numberOfMonths (props c) /\ firstOfMonth (MonthGrid.month g).
Proof.
  intros (p & c0 & Hinit & Hr) Hm.
  destruct (reachableFrom_keeps c0 c (useCalendar_keeps p c0 Hinit) Hr)
    as (_ & _ & _ & _ & ref & Hms).
  rewrite Hm in Hms. symmetry in Hms. unfold createMonthsFor in Hms. split.
  - apply createMonths_head in Hms. apply Hms.
  - eapply createMonths_head_first; eassumption.
Qed.

Lemma set_valid base v : valid v -> Date.set base v = v.
Proof.
  destruct v as [y m dd]. unfold valid, Date.set, constrainMonthDay.
  cbn [year month day]. intros [Hm Hd].
  replace (Z.max 1 (Z.min 12 m)) with m by lia. f_equal. lia.
Qed.

Lemma isSameMonth_refl d : isSameMonth d d = true.
Proof. unfold isSameMonth; cbn [year month startOfMonth]. now rewrite !Z.eqb_refl. Qed.

Lemma isSameMonth_addMonths d k :
  firstOfMonth d -> k <> 0 -> isSameMonth (addMonths d k) d = false.
Proof.
  destruct d as [y m dd]. unfold firstOfMonth; cbn [year month day].
  intros [Hm ->] Hk.
  unfold isSameMonth, addMonths, balanceYearMonth, constrainMonthDay,
    startOfMonth; cbn [year month day].
  set (t := y * 12 + (m + k - 1)).
  pose proof (Z.mod_pos_bound t 12 ltac:(lia)) as Ht.
  replace (Z.max 1 (Z.min 12 (t mod 12 + 1))) with (t mod 12 + 1) by lia.
  apply andb_false_iff.
  destruct (Z.eqb_spec (t / 12) y) as [Hy | Hy]; [right | left; reflexivity].
  apply Z.eqb_neq. unfold t in *. Z.div_mod_to_equations. lia.
Qed.

(** [nextPage] on a reachable state with a window: it returns, the window
    is the one of the month [pageStep] later, and the cursor is that
    month. *)
Lemma nextPage_spec c g rest :
  reachable c -> months c = g :: rest ->
  let target := addMonths (MonthGrid.month g) (pageStep (props c)) in
  exists g' rest',
    createMonthsFor (props c) target = g' :: rest'
    /\ MonthGrid.month g' = target
    /\ nextPage c
       = (Returns tt,
          setProps (Props.setDateCursor target (props c))
                   (setMonths (g' :: rest') c)).
Proof.
  intros Hr Hm target.
  destruct (reachable_window c g rest Hr Hm) as [Hn [Hmo Hd]].
  destruct (createMonths_cons (Props.weekStartsOn (props c))
              (Props.fixedWeeks (props c)) (Props.numberOfMonths (props c))
              target Hn) as [rest' Hc].
  pose proof (addMonths_first (MonthGrid.month g) (pageStep (props c)) Hd)
    as Hfirst. fold target in Hfirst.
  assert (Hmonth : MonthGrid.month
                     (Utils.createMonth (Props.weekStartsOn (props c))
                        (Props.fixedWeeks (props c)) target 0) = target).
  { unfold Utils.createMonth; cbn [MonthGrid.month].
    rewrite addMonths_0 by (apply firstOfMonth_valid, Hfirst).
    apply startOfMonth_first, Hfirst. }
  eexists; exists rest'. split; [exact Hc |]. split; [exact Hmonth |].
  unfold nextPage. rewrite Hm. fold target. unfold createMonthsFor in *.
  rewrite Hc. rewrite Hmonth.
  rewrite (startOfMonth_first target Hfirst). reflexivity.
Qed.

(** [prevPage] on a reachable state with a window: it returns and the
    cursor is the month [pageStep] earlier; nothing else is written. *)
Lemma prevPage_spec c g rest :
  reachable c -> months c = g :: rest ->
  prevPage c
  = (Returns tt,
     setProps (Props.setDateCursor
                 (subtractMonths (MonthGrid.month g) (pageStep (props c)))
                 (props c)) c).
Proof.
  intros Hr Hm.
  destruct (reachable_window c g rest Hr Hm) as [Hn [Hmo Hd]].
  set (target := subtractMonths (MonthGrid.month g) (pageStep (props c))).
  destruct (createMonths_cons (Props.weekStartsOn (props c))
              (Props.fixedWeeks (props c)) (Props.numberOfMonths (props c))
              target Hn) as [rest' Hc].
  pose proof (addMonths_first (MonthGrid.month g) (- pageStep (props c)) Hd)
    as Hfirst. fold (subtractMonths (MonthGrid.month g) (pageStep (props c)))
    in Hfirst. fold target in Hfirst.
  unfold prevPage. rewrite Hm. fold target. unfold createMonthsFor.
  rewrite Hc. unfold Utils.createMonth; cbn [MonthGrid.month].
  rewrite addMonths_0 by (apply firstOfMonth_valid, Hfirst).
  rewrite !(startOfMonth_first target Hfirst). reflexivity.
Qed.

(** The window is not among the things [prevPage] writes. *)
Lemma prevPage_months c : months (snd (prevPage c)) = months c.
Proof.
  unfold prevPage. destruct (months c) as [| g ms] eqn:Hm; [exact Hm |].
  destruct (createMonthsFor (props c) _); cbn [snd months setProps]; exact Hm.
Qed.

Lemma isSameMonth_set base v w :
  1 <= month v <= 12 -> 1 <= month w <= 12 ->
  isSameMonth (Date.set base v) (Date.set base w) = isSameMonth v w.
Proof.
  intros Hv Hw. unfold isSameMonth, Date.set, constrainMonthDay, startOfMonth.
  cbn [year month day].
  replace (Z.max 1 (Z.min 12 (month v))) with (month v) by lia.
  replace (Z.max 1 (Z.min 12 (month w))) with (month w) by lia.
  reflexivity.
Qed.

Lemma isSameMonth_fields a b :
  isSameMonth a b = true -> year a = year b /\ month a = month b.
Proof.
  unfold isSameMonth, startOfMonth; cbn [year month].
  intros H. apply andb_true_iff in H. destruct H as [Hy Hm].
  split; apply Z.eqb_eq; assumption.
Qed.

Lemma isSameMonth_trans_false a b x :
  isSameMonth a b = true -> isSameMonth x b = false -> isSameMonth x a = false.
Proof.
  intros Hab Hxb. apply isSameMonth_fields in Hab. destruct Hab as [Hy Hm].
  unfold isSameMonth, startOfMonth in *; cbn [year month] in *.
  rewrite Hy, Hm. exact Hxb.
Qed.

(** A run of the watcher after [nextPage] leaves the window of the new
    month in place, whatever the watcher had seen before. *)
Lemma nextPage_flush c g rest :
  reachable c -> months c = g :: rest ->
  let target := addMonths (MonthGrid.month g) (pageStep (props c)) in
  let c1 := flush (snd (nextPage c)) in
  months c1 = createMonthsFor (props c) target
  /\ firstVisibleMonth c1 = Some target
  /\ watched c1 = target
  /\ pageStep (props c1) = pageStep (props c).
Proof.
  intros Hr Hm target c1.
  destruct (nextPage_spec c g rest Hr Hm) as (g' & rest' & Hc & Hg' & Hnext).
  fold target in Hc, Hg', Hnext.
  destruct (reachable_window c g rest Hr Hm) as [_ [_ Hd]].
  pose proof (addMonths_first (MonthGrid.month g) (pageStep (props c)) Hd)
    as Hfirst. fold target in Hfirst.
  unfold c1. rewrite Hnext. cbn [snd].
  unfold flush, onDateCursorChange.
  cbn [props setProps setMonths Props.dateCursor Props.setDateCursor
       dateCursor watched].
  rewrite (set_valid _ target (firstOfMonth_valid _ Hfirst)).
  assert (Hcfg : createMonthsFor
                   (Props.setDateCursor target (props c)) target
                 = g' :: rest')
    by (rewrite <- Hc; apply createMonthsFor_config; repeat split).
  destruct (isSameMonth target _);
    cbn [months setWatched setProps setMonths watched props];
    unfold firstVisibleMonth, visibleMonths;
    cbn [months setWatched setProps setMonths];
    rewrite ?Hcfg, Hc; cbn [map hd_error]; rewrite Hg'; repeat split.
Qed.

(** From a state whose watcher has last seen a cursor in the first visible
    month, [prevPage] and a run of the watcher move the window back by
    [pageStep]. *)
Lemma prevPage_flush c g rest :
  reachable c -> months c = g :: rest ->
  isSameMonth (watched c) (MonthGrid.month g) = true ->
  firstVisibleMonth (flush (snd (prevPage c)))
  = Some (subtractMonths (MonthGrid.month g) (pageStep (props c))).
Proof.
  intros Hr Hm Hw.
  destruct (reachable_window c g rest Hr Hm) as [Hn Hfst].
  pose proof Hfst as [Hmo Hd].
  rewrite (prevPage_spec c g rest Hr Hm). cbn [snd].
  set (target := subtractMonths (MonthGrid.month g) (pageStep (props c))).
  assert (Hfirst : firstOfMonth target)
    by (apply addMonths_first, Hd).
  assert (Hstep : - pageStep (props c) <> 0)
    by (unfold pageStep; destruct (Props.pagedNavigation (props c)); lia).
  pose proof (isSameMonth_addMonths _ _ Hfst Hstep) as Hdiff.
  fold (subtractMonths (MonthGrid.month g) (pageStep (props c))) in Hdiff.
  fold target in Hdiff.
  pose proof (isSameMonth_trans_false _ _ _ Hw Hdiff) as Hdiff'.
  destruct (isSameMonth_fields _ _ Hw) as [_ Hwm].
  unfold flush, onDateCursorChange.
  cbn [props setProps Props.dateCursor Props.setDateCursor dateCursor watched].
  rewrite isSameMonth_set by (destruct Hfirst; lia).
  rewrite Hdiff'.
  rewrite (set_valid _ target (firstOfMonth_valid _ Hfirst)).
  unfold firstVisibleMonth, visibleMonths.
  cbn [months setWatched setMonths].
  destruct (createMonths_cons (Props.weekStartsOn (props c))
              (Props.fixedWeeks (props c)) (Props.numberOfMonths (props c))
              target Hn) as [rest' Hc].
  unfold createMonthsFor.
  cbn [props setProps Props.weekStartsOn Props.fixedWeeks Props.numberOfMonths
       Props.setDateCursor].
  rewrite Hc. cbn [map hd_error]. unfold Utils.createMonth.
  cbn [MonthGrid.month].
  rewrite addMonths_0 by (apply firstOfMonth_valid, Hfirst).
  rewrite (startOfMonth_first target Hfirst). reflexivity.
Qed.

Lemma reachable_step c c' : reachable c -> step c c' -> reachable c'.
Proof.
  intros (p & c0 & Hinit & Hr) Hs. exists p, c0. split; [exact Hinit |].
  eapply reach_step; eassumption.
Qed.

Lemma reachable_constructed p : reachable (constructed p).
Proof. exists p, (constructed p). split; [reflexivity | constructor]. Qed.

(** With a run of the watcher after each command, a page forward and a
    page backward bring the first visible month back. *)
Lemma next_prev_with_flushes c g rest :
  reachable c -> months c = g :: rest ->
  firstVisibleMonth
    (flush (snd (prevPage (flush (snd (nextPage c))))))
  = Some (MonthGrid.month g).
Proof.
  intros Hr Hm.
  destruct (nextPage_flush c g rest Hr Hm) as (Hms & Hfv & Hw & Hps).
  destruct (reachable_window c g rest Hr Hm) as [Hn Hfst].
  set (c1 := flush (snd (nextPage c))) in *.
  assert (Hr1 : reachable c1).
  { eapply reachable_step; [| apply step_flush].
    eapply reachable_step; [exact Hr | apply step_next]. }
  unfold firstVisibleMonth, visibleMonths in Hfv.
  destruct (months c1) as [| g1 rest1] eqn:Hm1; [discriminate |].
  cbn [map hd_error] in Hfv. injection Hfv as Hg1.
  rewrite (prevPage_flush c1 g1 rest1 Hr1 Hm1).
  - rewrite Hg1, Hps. unfold subtractMonths.
    rewrite addMonths_addMonths by exact Hfst.
    replace (pageStep (props c) + - pageStep (props c)) with 0 by ring.
    rewrite addMonths_0 by (apply firstOfMonth_valid, Hfst). reflexivity.
  - rewrite Hw, Hg1. apply isSameMonth_refl.
Qed.

(** C1.  On the controller built from [sampleProps] (June 2024 visible,
    steps of one month) [prevPage] returns with the window still on June
    2024, not on May 2024 as the claim has it; and called on the state
    [nextPage] leaves, before the watcher has run, it leaves the window on
    July 2024 even after the watcher runs, not on June 2024. *)
Theorem prevPage_leaves_window_sample :
  let c0 := constructed sampleProps in
  firstVisibleMonth c0 = Some (mkDate 2024 6 1)
  /\ subtractMonths (mkDate 2024 6 1) (pageStep (props c0)) = mkDate 2024 5 1
  /\ fst (prevPage c0) = Returns tt
  /\ firstVisibleMonth (snd (prevPage c0)) = Some (mkDate 2024 6 1)
  /\ firstVisibleMonth (snd (nextPage c0)) = Some (mkDate 2024 7 1)
  /\ firstVisibleMonth (flush (snd (prevPage (snd (nextPage c0)))))
     = Some (mkDate 2024 7 1).
Proof. vm_compute. repeat split. Qed.

(** C3.  On the controller built from [sampleProps] (June 2024 visible,
    steps of one month) [nextPage] leaves the cursor on [startOfMonth] of
    the new first visible month, July 2024, but [prevPage] leaves it on
    1 May 2024 while the first visible month is still June 2024: the
    cursor is then outside the visible view.  Called on the state
    [nextPage] leaves, before the watcher has run, it leaves the cursor on
    1 June 2024 under a window on July 2024, also after the watcher
    runs. *)
Theorem prevPage_cursor_off_window_sample :
  let c0 := constructed sampleProps in
  let c2 := flush (snd (prevPage (snd (nextPage c0)))) in
  (fst (nextPage c0) = Returns tt
   /\ firstVisibleMonth (snd (nextPage c0)) = Some (mkDate 2024 7 1)
   /\ cursor (snd (nextPage c0)) = startOfMonth (mkDate 2024 7 1))
  /\ (fst (prevPage c0) = Returns tt
      /\ firstVisibleMonth (snd (prevPage c0)) = Some (mkDate 2024 6 1)
      /\ cursor (snd (prevPage c0)) = mkDate 2024 5 1
      /\ startOfMonth (mkDate 2024 6 1) = mkDate 2024 6 1
      /\ isOutsideVisibleView (snd (prevPage c0)) (cursor (snd (prevPage c0)))
         = true)
  /\ (firstVisibleMonth c2 = Some (mkDate 2024 7 1)
      /\ cursor c2 = mkDate 2024 6 1
      /\ isOutsideVisibleView c2 (cursor c2) = true).
Proof. vm_compute. repeat split. Qed.

(** C4.  On the controller built from [sampleProps] (June 2024 visible,
    single-month steps, no bounds) [nextPage] followed at once by
    [prevPage] leaves the window on July 2024, and the run of the watcher
    that follows keeps it there while the cursor reads 1 June 2024. *)
Theorem next_then_prev_sample :
  let c0 := constructed sampleProps in
  let c2 := snd (prevPage (snd (nextPage c0))) in
  Props.pagedNavigation (props c0) = false
  /\ minValue c0 = None /\ maxValue c0 = None
  /\ firstVisibleMonth c0 = Some (mkDate 2024 6 1)
  /\ fst (nextPage c0) = Returns tt
  /\ fst (prevPage (snd (nextPage c0))) = Returns tt
  /\ firstVisibleMonth c2 = Some (mkDate 2024 7 1)
  /\ firstVisibleMonth (flush c2) = Some (mkDate 2024 7 1)
  /\ cursor (flush c2) = mkDate 2024 6 1.
Proof. vm_compute. repeat split. Qed.

(** C2.  [isNextButtonDisabled] is true exactly when a [maxValue] was
    captured, a month is visible, and the calendar is globally disabled or
    [startOfMonth] of the month after the last visible one is strictly
    after [maxValue]; without a [maxValue] or without a visible month it is
    false, whatever [disabled] says. *)
Theorem isNextButtonDisabled_spec c :
  (isNextButtonDisabled c = true <->
   exists maxV g,
     maxValue c = Some maxV /\ lastGrid (months c) = Some g
     /\ (Props.disabled (props c) = true
         \/ 0 < compare (startOfMonth (addMonths (MonthGrid.month g) 1)) maxV))
  /\ (maxValue c = None \/ months c = [] -> isNextButtonDisabled c = false).
Proof.
  unfold isNextButtonDisabled, Utils.isAfter. split; [split |].
  - destruct (maxValue c) as [maxV |]; [| discriminate].
    destruct (lastGrid (months c)) as [g |]; [| discriminate].
    intros H. exists maxV, g. repeat split.
    destruct (Props.disabled (props c)); [left; reflexivity | right].
    apply Z.ltb_lt, H.
  - intros (maxV & g & -> & -> & [-> | H]); [reflexivity |].
    destruct (Props.disabled (props c)); [reflexivity | apply Z.ltb_lt, H].
  - intros [-> | ->]; [reflexivity |].
    destruct (maxValue c); reflexivity.
Qed.

(** C2, as worded: a globally disabled calendar with no [maxValue] has the
    next button enabled. *)
Lemma isNextButtonDisabled_counterexample :
  Props.disabled (props (constructed disabledProps)) = true
  /\ isNextButtonDisabled (constructed disabledProps) = false.
Proof. split; reflexivity. Qed.

(** C6.  [isPrevButtonDisabled] is true exactly when a [minValue] was
    captured, a month is visible, and the calendar is globally disabled or
    [endOfMonth] of the month before the first visible one is strictly
    before [minValue]; without a [minValue] or without a visible month it
    is false, whatever [disabled] says. *)
Theorem isPrevButtonDisabled_spec c :
  (isPrevButtonDisabled c = true <->
   exists minV g,
     minValue c = Some minV /\ hd_error (months c) = Some g
     /\ (Props.disabled (props c) = true
         \/ compare (endOfMonth (subtractMonths (MonthGrid.month g) 1)) minV < 0))
  /\ (minValue c = None \/ months c = [] -> isPrevButtonDisabled c = false).
Proof.
  unfold isPrevButtonDisabled, Utils.isBefore. split; [split |].
  - destruct (minValue c) as [minV |]; [| discriminate].
    destruct (months c) as [| g ms]; [discriminate |].
    intros H. exists minV, g. repeat split.
    destruct (Props.disabled (props c)); [left; reflexivity | right].
    apply Z.ltb_lt, H.
  - intros (minV & g & -> & Hg & Hd).
    destruct (months c) as [| g0 ms]; [discriminate |].
    cbn [hd_error] in Hg. injection Hg as ->.
    destruct Hd as [-> | H]; [reflexivity |].
    destruct (Props.disabled (props c)); [reflexivity | apply Z.ltb_lt, H].
  - intros [-> | ->]; [reflexivity |].
    destruct (minValue c); reflexivity.
Qed.

(** C6, as worded: a globally disabled calendar with no [minValue] has the
    previous button enabled. *)
Lemma isPrevButtonDisabled_counterexample :
  Props.disabled (props (constructed disabledProps)) = true
  /\ isPrevButtonDisabled (constructed disabledProps) = false.
Proof. split; reflexivity. Qed.

(** C7.  [useCalendar] never rejects: whatever the props, it returns a
    controller over those props whose window is what [createMonths] makes
    of [numberOfMonths] as passed, so a number below 1 is left to
    grid-building; and the [weekStartsOn] it receives is a [DayOfWeek],
    whose values are 0 to 6. *)
Theorem useCalendar_never_rejects p :
  (exists c,
      useCalendar p = Returns c
      /\ props c = p
      /\ months c
         = Utils.createMonths (Props.weekStartsOn p) (Props.fixedWeeks p)
                              (Props.numberOfMonths p) (Props.dateCursor p))
  /\ 0 <= dayNumber (Props.weekStartsOn p) <= 6.
Proof.
  split.
  - eexists. split; [reflexivity |]. split; reflexivity.
  - pose proof (dayNumber_range (Props.weekStartsOn p)). lia.
Qed.

(** C7, as worded: the construction with [numberOfMonths = 0] is not
    rejected. *)
Lemma useCalendar_rejects_counterexample :
  Props.numberOfMonths zeroMonthsProps < 1
  /\ useCalendar zeroMonthsProps = Returns (constructed zeroMonthsProps)
  /\ useCalendar zeroMonthsProps <> Throws TypeError.
Proof. split; [reflexivity | split; [reflexivity | discriminate]]. Qed.

(** C10.  Whatever happens to a controller after its construction,
    including writes of the owner to [props.minValue] and [props.maxValue],
    the bounds it uses are the ones read at construction, and one more
    write to those two inputs changes no result of [isDateDisabled],
    [isNextButtonDisabled] or [isPrevButtonDisabled]. *)
Theorem bounds_fixed_at_construction p c0 c :
  useCalendar p = Returns c0 -> reachableFrom c0 c ->
  minValue c = option_map (Date.set (Props.dateCursor p)) (Props.minValue p)
  /\ maxValue c = option_map (Date.set (Props.dateCursor p)) (Props.maxValue p)
  /\ forall newMin newMax,
      let c' := setProps (Props.setMaxValue newMax
                            (Props.setMinValue newMin (props c))) c in
      (forall d, isDateDisabled c' d = isDateDisabled c d)
      /\ isNextButtonDisabled c' = isNextButtonDisabled c
      /\ isPrevButtonDisabled c' = isPrevButtonDisabled c.
Proof.
  intros Hinit Hr.
  destruct (reachableFrom_keeps c0 c (useCalendar_keeps p c0 Hinit) Hr)
    as (_ & _ & Hmin & Hmax & _).
  unfold useCalendar in Hinit. injection Hinit as <-.
  cbn [minValue maxValue] in Hmin, Hmax.
  split; [exact Hmin | split; [exact Hmax |]].
  intros newMin newMax c'. repeat split.
Qed.

Lemma bounds_fixed_at_construction_witness :
  minValue (setProps (Props.setMinValue None (props (constructed winterProps)))
                     (constructed winterProps))
  = Some (mkDate 2024 11 20)
  /\ isDateDisabled
       (setProps (Props.setMinValue None (props (constructed winterProps)))
                 (constructed winterProps))
       (mkDate 2024 11 19)
     = true.
Proof.
  destruct (bounds_fixed_at_construction winterProps (constructed winterProps)
              (setProps (Props.setMinValue None (props (constructed winterProps)))
                        (constructed winterProps))
              eq_refl
              (reach_step _ _ _ (reach_here _) (step_min _ None)))
    as (Hmin & _ & _).
  split; [exact Hmin | reflexivity].
Defined.

End ControllerFacts.

(** ** The selection *)

Section SelectionFacts.

Variable props : StateProps.t.

(** A date the supplied predicates flag. *)
Let flagged (d : CalendarDate) : bool :=
  callMatcher (StateProps.isDateDisabled props) d
  || callMatcher (StateProps.isDateUnavailable props) d.

Lemma anyInvalid_existsb ds :
  CalendarState.anyInvalid props ds = existsb flagged ds.
Proof.
  induction ds as [| d ds IH]; [reflexivity |].
  cbn [CalendarState.anyInvalid existsb]. unfold flagged at 1.
  destruct (callMatcher (StateProps.isDateDisabled props) d); [reflexivity |].
  destruct (callMatcher (StateProps.isDateUnavailable props) d);
    [reflexivity | exact IH].
Qed.

End SelectionFacts.

Lemma existsb_pointwise (f g : CalendarDate -> bool) l :
  (forall x, f x = g x) -> existsb f l = existsb g l.
Proof.
  intros H. induction l as [| x xs IH]; [reflexivity |].
  cbn [existsb]. rewrite H, IH. reflexivity.
Qed.

(** C8.  With the two predicates supplied as [dis] and [unav]:
    [isInvalid] is false on an absent selection and on an empty set; on a
    single date it is [dis] or [unav] of that date; on a set it is true
    exactly when [dis] or [unav] holds of some member, hence also when
    they hold of every member of a non-empty set.  A predicate that is
    not supplied flags nothing. *)
Theorem isInvalid_spec (dis unav : Matcher) :
  CalendarState.isInvalid (StateProps.mk (Some dis) (Some unav) NoSelection)
  = false
  /\ CalendarState.isInvalid (StateProps.mk (Some dis) (Some unav) (Many []))
     = false
  /\ (forall d,
        CalendarState.isInvalid (StateProps.mk (Some dis) (Some unav) (Single d))
        = dis d || unav d)
  /\ (forall ds,
        CalendarState.isInvalid (StateProps.mk (Some dis) (Some unav) (Many ds))
        = existsb (fun d => dis d || unav d) ds)
  /\ (forall d ds,
        forallb (fun x => dis x || unav x) (d :: ds) = true ->
        CalendarState.isInvalid
          (StateProps.mk (Some dis) (Some unav) (Many (d :: ds)))
        = true)
  /\ (forall d,
        CalendarState.isInvalid (StateProps.mk (Some dis) None (Single d))
        = dis d
        /\ CalendarState.isInvalid (StateProps.mk None (Some unav) (Single d))
           = unav d)
  /\ (forall ds,
        CalendarState.isInvalid (StateProps.mk (Some dis) None (Many ds))
        = existsb dis ds
        /\ CalendarState.isInvalid (StateProps.mk None (Some unav) (Many ds))
           = existsb unav ds)
  /\ (forall sel, CalendarState.isInvalid (StateProps.mk None None sel) = false).
Proof.
  assert (Hmany : forall (m1 m2 : option Matcher) ds,
             CalendarState.isInvalid (StateProps.mk m1 m2 (Many ds))
             = existsb (fun d => callMatcher m1 d || callMatcher m2 d) ds).
  { intros m1 m2 ds. unfold CalendarState.isInvalid; cbn [StateProps.selection].
    destruct ds as [| d ds]; [reflexivity |].
    apply (anyInvalid_existsb (StateProps.mk m1 m2 (Many (d :: ds)))). }
  assert (Hone : forall (m1 m2 : option Matcher) d,
             CalendarState.isInvalid (StateProps.mk m1 m2 (Single d))
             = callMatcher m1 d || callMatcher m2 d).
  { intros m1 m2 d. unfold CalendarState.isInvalid;
      cbn [StateProps.selection StateProps.isDateDisabled
           StateProps.isDateUnavailable].
    destruct (callMatcher m1 d); [reflexivity |].
    destruct (callMatcher m2 d); reflexivity. }
  split; [reflexivity | split; [reflexivity |]].
  split; [intros d; apply (Hone (Some dis) (Some unav)) |].
  split; [intros ds; apply (Hmany (Some dis) (Some unav)) |].
  split.
  { intros d ds Hall. rewrite (Hmany (Some dis) (Some unav)).
    cbn [existsb forallb callMatcher] in Hall |- *.
    apply andb_true_iff in Hall. destruct Hall as [-> _]. reflexivity. }
  split.
  { intros d. rewrite (Hone (Some dis) None), (Hone None (Some unav)).
    cbn [callMatcher]. rewrite orb_false_r. split; reflexivity. }
  split.
  { intros ds. rewrite (Hmany (Some dis) None), (Hmany None (Some unav)).
    cbn [callMatcher]. split; apply existsb_pointwise; intros d;
      [apply orb_false_r | reflexivity]. }
  intros [| d | ds].
  - reflexivity.
  - rewrite Hone. reflexivity.
  - rewrite Hmany. cbn [callMatcher orb].
    induction ds as [| x xs IH]; [reflexivity | exact IH].
Qed.

(** ** The heading *)

Section HeadingFacts.

Variable formatter : DateFormatter.

Lemma lastGrid_last middle lastg : lastGrid (middle ++ [lastg]) = Some lastg.
Proof.
  induction middle as [| g middle IH]; [reflexivity |].
  cbn [app]. destruct (middle ++ [lastg]) as [| x xs] eqn:Happ.
  - destruct middle; discriminate.
  - exact IH.
Qed.


End HeadingFacts.



(** ** The window as a run of months *)

Section WindowFacts.

Lemma addMonths_index d n :
  startOfMonth (addMonths d n) = monthOfIndex (monthIndex d + n).
Proof.
  unfold startOfMonth, addMonths, balanceYearMonth, constrainMonthDay,
    monthOfIndex, monthIndex; cbn [year month day].
  replace (year d * 12 + (month d + n - 1))
    with (year d * 12 + (month d - 1) + n) by ring.
  set (t := year d * 12 + (month d - 1) + n).
  pose proof (Z.mod_pos_bound t 12 ltac:(lia)) as Ht.
  replace (Z.max 1 (Z.min 12 (t mod 12 + 1))) with (t mod 12 + 1) by lia.
  reflexivity.
Qed.

Lemma monthIndex_monthOfIndex k : monthIndex (monthOfIndex k) = k.
Proof.
  unfold monthIndex, monthOfIndex; cbn [year month].
  Z.div_mod_to_equations. lia.
Qed.

Lemma firstOfMonth_monthOfIndex k : firstOfMonth (monthOfIndex k).
Proof.
  unfold firstOfMonth, monthOfIndex; cbn [month day].
  pose proof (Z.mod_pos_bound k 12 ltac:(lia)). lia.
Qed.

Lemma firstOfMonth_index d : firstOfMonth d -> d = monthOfIndex (monthIndex d).
Proof.
  intros Hf. rewrite <- (Z.add_0_r (monthIndex d)), <- addMonths_index.
  rewrite addMonths_0 by (apply firstOfMonth_valid, Hf).
  symmetry. apply startOfMonth_first, Hf.
Qed.

Lemma addMonths_monthOfIndex k n :
  addMonths (monthOfIndex k) n = monthOfIndex (k + n).
Proof.
  pose proof (firstOfMonth_monthOfIndex k) as [_ Hd].
  rewrite <- (startOfMonth_first _ (addMonths_first (monthOfIndex k) n Hd)).
  rewrite addMonths_index, monthIndex_monthOfIndex. reflexivity.
Qed.

Lemma createMonth_index ws fw ref i :
  Utils.createMonth ws fw ref i
  = Utils.createMonth ws fw (monthOfIndex (monthIndex ref + i)) 0.
Proof.
  unfold Utils.createMonth.
  rewrite !addMonths_index, monthIndex_monthOfIndex, Z.add_0_r. reflexivity.
Qed.

Lemma createMonth_month ws fw ref i :
  MonthGrid.month (Utils.createMonth ws fw ref i)
  = monthOfIndex (monthIndex ref + i).
Proof. unfold Utils.createMonth; cbn [MonthGrid.month]. apply addMonths_index. Qed.

(** [createMonths] looks at the month of its reference date only. *)
Lemma createMonths_rebase ws fw n ref :
  Utils.createMonths ws fw n ref
  = Utils.createMonths ws fw n (monthOfIndex (monthIndex ref)).
Proof.
  unfold Utils.createMonths. apply map_ext. intros i.
  rewrite (createMonth_index ws fw ref),
    (createMonth_index ws fw (monthOfIndex (monthIndex ref))).
  rewrite monthIndex_monthOfIndex. reflexivity.
Qed.

Lemma createMonths_months ws fw n ref :
  map MonthGrid.month (Utils.createMonths ws fw n ref)
  = map (fun i => monthOfIndex (monthIndex ref + Z.of_nat i))
        (seq 0 (Z.to_nat n)).
Proof.
  unfold Utils.createMonths. rewrite map_map. apply map_ext.
  intros i. apply createMonth_month.
Qed.

(** In a reachable state the window is the [createMonths] result of its
    own first month. *)
Lemma window_from_first c g rest :
  reachable c -> months c = g :: rest ->
  months c = createMonthsFor (props c) (MonthGrid.month g).
Proof.
  intros (p & c0 & Hinit & Hr) Hm.
  destruct (reachableFrom_keeps c0 c (useCalendar_keeps p c0 Hinit) Hr)
    as (_ & _ & _ & _ & ref & Hms).
  assert (Hg : MonthGrid.month g = monthOfIndex (monthIndex ref)).
  { rewrite Hm in Hms. symmetry in Hms. unfold createMonthsFor in Hms.
    apply createMonths_head in Hms. destruct Hms as [_ ->].
    rewrite addMonths_index, Z.add_0_r. reflexivity. }
  rewrite Hms, Hg. unfold createMonthsFor. apply createMonths_rebase.
Qed.

Lemma reachable_length c :
  reachable c ->
  List.length (months c) = Z.to_nat (Props.numberOfMonths (props c)).
Proof.
  intros (p & c0 & Hinit & Hr).
  destruct (reachableFrom_keeps c0 c (useCalendar_keeps p c0 Hinit) Hr)
    as (_ & _ & _ & _ & ref & Hms).
  rewrite Hms. unfold createMonthsFor, Utils.createMonths.
  rewrite length_map, length_seq. reflexivity.
Qed.

Lemma visibleMonths_from_first c g rest :
  reachable c -> months c = g :: rest ->
  visibleMonths c
  = map (fun i => addMonths (MonthGrid.month g) (Z.of_nat i))
        (seq 0 (Z.to_nat (Props.numberOfMonths (props c)))).
Proof.
  intros Hr Hm. unfold visibleMonths.
  rewrite (window_from_first c g rest Hr Hm) at 1.
  unfold createMonthsFor. rewrite createMonths_months.
  destruct (reachable_window c g rest Hr Hm) as [_ Hf].
  apply map_ext. intros i.
  rewrite (firstOfMonth_index _ Hf) at 2.
  rewrite addMonths_monthOfIndex. reflexivity.
Qed.

(** X1.  In a reachable state whose window, from its first month to
    [numberOfMonths - 1] months later, lies within the years 1..9999, the
    window holds [numberOfMonths] grids and its months are first-of-month
    dates that follow one another: the month at index [i] is the first
    visible month plus [i] months. *)
Theorem window_is_a_run_of_months c g rest :
  reachable c -> months c = g :: rest ->
  inYears (MonthGrid.month g) ->
  inYears (addMonths (MonthGrid.month g) (Props.numberOfMonths (props c) - 1)) ->
  List.length (visibleMonths c) = Z.to_nat (Props.numberOfMonths (props c))
  /\ Forall firstOfMonth (visibleMonths c)
  /\ visibleMonths c
     = map (fun i => addMonths (MonthGrid.month g) (Z.of_nat i))
           (seq 0 (Z.to_nat (Props.numberOfMonths (props c)))).
Proof.
  intros Hr Hm _ _. split; [| split].
  - unfold visibleMonths. rewrite length_map. apply reachable_length, Hr.
  - rewrite (visibleMonths_from_first c g rest Hr Hm).
    destruct (reachable_window c g rest Hr Hm) as [_ [_ Hd]].
    apply Forall_forall. intros m Hin. apply in_map_iff in Hin.
    destruct Hin as (i & <- & _). apply addMonths_first, Hd.
  - apply (visibleMonths_from_first c g rest Hr Hm).
Qed.

Lemma window_is_a_run_of_months_witness :
  visibleMonths (constructed winterProps)
  = [mkDate 2024 12 1; mkDate 2025 1 1].
Proof.
  destruct (window_is_a_run_of_months (constructed winterProps)
              (Utils.createMonth Dow1 true (mkDate 2024 12 10) 0)
              [Utils.createMonth Dow1 true (mkDate 2024 12 10) 1]
              (reachable_constructed winterProps) eq_refl)
    as (_ & _ & H).
  - unfold inYears; vm_compute; split; discriminate.
  - unfold inYears; vm_compute; split; discriminate.
  - rewrite H. reflexivity.
Defined.

End WindowFacts.

(** ** Page turns followed by the watcher *)

Section SettledFacts.

Lemma isSameMonth_startOfMonth d : isSameMonth d (startOfMonth d) = true.
Proof. unfold isSameMonth, startOfMonth; cbn [year month]. now rewrite !Z.eqb_refl. Qed.

Lemma isSameMonth_trans a b x :
  isSameMonth a b = true -> isSameMonth b x = true -> isSameMonth a x = true.
Proof.
  intros Hab Hbx. apply isSameMonth_fields in Hab. destruct Hab as [Hy Hm].
  unfold isSameMonth, startOfMonth in *; cbn [year month] in *.
  rewrite Hy, Hm. exact Hbx.
Qed.

Lemma nextPage_flush_state c g rest :
  reachable c -> months c = g :: rest ->
  flush (snd (nextPage c))
  = turned (addMonths (MonthGrid.month g) (pageStep (props c))) c.
Proof.
  intros Hr Hm.
  destruct (nextPage_spec c g rest Hr Hm) as (g' & rest' & Hc & Hg' & Hnext).
  destruct (reachable_window c g rest Hr Hm) as [_ [_ Hd]].
  pose proof (addMonths_first (MonthGrid.month g) (pageStep (props c)) Hd)
    as Hfirst.
  set (target := addMonths (MonthGrid.month g) (pageStep (props c))) in *.
  rewrite Hnext. cbn [snd]. unfold flush, onDateCursorChange, turned.
  cbn [props setProps setMonths Props.dateCursor Props.setDateCursor
       dateCursor watched].
  rewrite (set_valid _ target (firstOfMonth_valid _ Hfirst)).
  destruct (isSameMonth target _); unfold setWatched, setMonths, setProps;
    cbn [props dateCursor minValue maxValue months watched].
  - rewrite Hc. reflexivity.
  - reflexivity.
Qed.

Lemma prevPage_flush_state c g rest :
  reachable c -> months c = g :: rest ->
  isSameMonth (watched c) (MonthGrid.month g) = true ->
  flush (snd (prevPage c))
  = turned (subtractMonths (MonthGrid.month g) (pageStep (props c))) c.
Proof.
  intros Hr Hm Hw.
  destruct (reachable_window c g rest Hr Hm) as [Hn Hfst].
  pose proof Hfst as [Hmo Hd].
  rewrite (prevPage_spec c g rest Hr Hm). cbn [snd].
  set (target := subtractMonths (MonthGrid.month g) (pageStep (props c))).
  assert (Hfirst : firstOfMonth target) by (apply addMonths_first, Hd).
  assert (Hstep : - pageStep (props c) <> 0)
    by (unfold pageStep; destruct (Props.pagedNavigation (props c)); lia).
  pose proof (isSameMonth_addMonths _ _ Hfst Hstep) as Hdiff.
  fold (subtractMonths (MonthGrid.month g) (pageStep (props c))) in Hdiff.
  fold target in Hdiff.
  pose proof (isSameMonth_trans_false _ _ _ Hw Hdiff) as Hdiff'.
  destruct (isSameMonth_fields _ _ Hw) as [_ Hwm].
  unfold flush, onDateCursorChange, turned.
  cbn [props setProps Props.dateCursor Props.setDateCursor dateCursor watched].
  rewrite isSameMonth_set by (destruct Hfirst; lia).
  rewrite Hdiff'.
  rewrite (set_valid _ target (firstOfMonth_valid _ Hfirst)).
  reflexivity.
Qed.

(** What a turned state looks like. *)
Lemma turned_window target c :
  1 <= Props.numberOfMonths (props c) -> firstOfMonth target ->
  exists g rest,
    months (turned target c) = g :: rest /\ MonthGrid.month g = target.
Proof.
  intros Hn Hf. unfold turned; cbn [months]. unfold createMonthsFor.
  destruct (createMonths_cons (Props.weekStartsOn (props c))
              (Props.fixedWeeks (props c)) (Props.numberOfMonths (props c))
              target Hn) as [rest Hc].
  rewrite Hc. eexists; exists rest. split; [reflexivity |].
  rewrite createMonth_month, Z.add_0_r. symmetry.
  apply firstOfMonth_index, Hf.
Qed.

(** What holds in every settled state: it is reachable, a month is
    visible, the cursor is a date of the first visible month, and the
    watcher has seen it. *)
Lemma settled_inv c :
  settled c ->
  reachable c
  /\ exists g rest,
      months c = g :: rest
      /\ isSameMonth (cursor c) (MonthGrid.month g) = true
      /\ watched c = cursor c
      /\ valid (cursor c).
Proof.
  induction 1 as [p Hn Hv | c Hs IH | c Hs IH | c v Hs IH Hv | c Hs IH
                  | c v Hs IH | c v Hs IH | c v Hs IH].
  - split; [apply reachable_constructed |].
    unfold constructed, useCalendar, cursor; cbn [months props watched].
    destruct (createMonths_cons (Props.weekStartsOn p) (Props.fixedWeeks p)
                (Props.numberOfMonths p) (Props.dateCursor p) Hn)
      as [rest Hc].
    unfold createMonthsFor. rewrite Hc. eexists; exists rest.
    split; [reflexivity |]. split; [| split; [reflexivity | exact Hv]].
    unfold Utils.createMonth; cbn [MonthGrid.month].
    rewrite addMonths_0 by exact Hv. apply isSameMonth_startOfMonth.
  - destruct IH as (Hr & g & rest & Hm & _).
    destruct (reachable_window c g rest Hr Hm) as [Hn [_ Hd]].
    split.
    { eapply reachable_step; [| apply step_flush].
      eapply reachable_step; [exact Hr | apply step_next]. }
    rewrite (nextPage_flush_state c g rest Hr Hm).
    pose proof (addMonths_first (MonthGrid.month g) (pageStep (props c)) Hd)
      as Hf.
    destruct (turned_window _ c Hn Hf) as (g' & rest' & Hm' & Hg').
    exists g', rest'. split; [exact Hm' |].
    unfold cursor, turned; cbn [props watched Props.dateCursor
                                  Props.setDateCursor].
    rewrite Hg'. split; [apply isSameMonth_refl |].
    split; [reflexivity | apply firstOfMonth_valid, Hf].
  - destruct IH as (Hr & g & rest & Hm & Hsame & Hw & _).
    destruct (reachable_window c g rest Hr Hm) as [Hn [_ Hd]].
    split.
    { eapply reachable_step; [| apply step_flush].
      eapply reachable_step; [exact Hr | apply step_prev]. }
    rewrite (prevPage_flush_state c g rest Hr Hm)
      by (rewrite Hw; exact Hsame).
    pose proof (addMonths_first (MonthGrid.month g) (- pageStep (props c)) Hd)
      as Hf.
    fold (subtractMonths (MonthGrid.month g) (pageStep (props c))) in Hf.
    destruct (turned_window _ c Hn Hf) as (g' & rest' & Hm' & Hg').
    exists g', rest'. split; [exact Hm' |].
    unfold cursor, turned; cbn [props watched Props.dateCursor
                                  Props.setDateCursor].
    rewrite Hg'. split; [apply isSameMonth_refl |].
    split; [reflexivity | apply firstOfMonth_valid, Hf].
  - destruct IH as (Hr & g & rest & Hm & Hsame & Hw & Hvc).
    destruct (reachable_window c g rest Hr Hm) as [Hn _].
    split.
    { eapply reachable_step; [| apply step_flush].
      eapply reachable_step; [exact Hr | apply step_cursor]. }
    unfold flush, onDateCursorChange, writeCursor, cursor in *.
    cbn [props setProps Props.dateCursor Props.setDateCursor dateCursor
         watched months].
    rewrite Hw, (set_valid _ v Hv), (set_valid _ _ Hvc).
    destruct (isSameMonth v (Props.dateCursor (props c))) eqn:Hsv;
      cbn [months setWatched setMonths setProps props watched
           Props.dateCursor Props.setDateCursor].
    + exists g, rest. split; [exact Hm |].
      split; [eapply isSameMonth_trans; eassumption |].
      split; [reflexivity | exact Hv].
    + destruct (createMonths_cons (Props.weekStartsOn (props c))
                  (Props.fixedWeeks (props c))
                  (Props.numberOfMonths (props c)) v Hn) as [rest' Hc].
      unfold createMonthsFor.
      cbn [Props.weekStartsOn Props.fixedWeeks Props.numberOfMonths
           Props.setDateCursor].
      rewrite Hc. eexists; exists rest'. split; [reflexivity |].
      split; [| split; [reflexivity | exact Hv]].
      unfold Utils.createMonth; cbn [MonthGrid.month].
      rewrite addMonths_0 by exact Hv. apply isSameMonth_startOfMonth.
  - destruct IH as (Hr & g & rest & Hm & Hsame & Hw & Hvc).
    split; [eapply reachable_step; [exact Hr | apply step_flush] |].
    unfold flush, onDateCursorChange, cursor in *.
    rewrite Hw, isSameMonth_refl.
    cbn [months setWatched props watched].
    exists g, rest.
    split; [exact Hm | split; [exact Hsame | split; [reflexivity | exact Hvc]]].
  - destruct IH as (Hr & g & rest & Hm & Hsame & Hw & Hvc).
    split; [eapply reachable_step; [exact Hr | apply step_min] |].
    exists g, rest.
    split; [exact Hm | split; [exact Hsame | split; [exact Hw | exact Hvc]]].
  - destruct IH as (Hr & g & rest & Hm & Hsame & Hw & Hvc).
    split; [eapply reachable_step; [exact Hr | apply step_max] |].
    exists g, rest.
    split; [exact Hm | split; [exact Hsame | split; [exact Hw | exact Hvc]]].
  - destruct IH as (Hr & g & rest & Hm & Hsame & Hw & Hvc).
    split; [eapply reachable_step; [exact Hr | apply step_disabled] |].
    exists g, rest.
    split; [exact Hm | split; [exact Hsame | split; [exact Hw | exact Hvc]]].
Qed.

Lemma monthIndex_addMonths d n : monthIndex (addMonths d n) = monthIndex d + n.
Proof.
  rewrite <- (monthIndex_monthOfIndex (monthIndex d + n)), <- addMonths_index.
  reflexivity.
Qed.

(** The months of the window built for the first visible month moved by
    [k] are the visible months, each moved by [k]. *)
Lemma moved_window c g rest k :
  reachable c -> months c = g :: rest ->
  map MonthGrid.month
      (createMonthsFor (props c) (addMonths (MonthGrid.month g) k))
  = map (fun m => addMonths m k) (visibleMonths c).
Proof.
  intros Hr Hm. unfold visibleMonths at 1.
  rewrite (window_from_first c g rest Hr Hm) at 1.
  unfold createMonthsFor. rewrite !createMonths_months, map_map.
  apply map_ext. intros i.
  rewrite monthIndex_addMonths, addMonths_monthOfIndex. f_equal. ring.
Qed.

(** X2.  When the watcher runs after every command and every cursor
    write, a month is always visible, the cursor is a date of the first
    visible month (so never outside the visible view), and the watcher has
    seen it. *)
Theorem settled_cursor_in_view c :
  settled c ->
  exists m,
    firstVisibleMonth c = Some m
    /\ isSameMonth (cursor c) m = true
    /\ isOutsideVisibleView c (cursor c) = false
    /\ watched c = cursor c.
Proof.
  intros Hs. destruct (settled_inv c Hs) as (_ & g & rest & Hm & Hsame & Hw & _).
  exists (MonthGrid.month g).
  unfold firstVisibleMonth, isOutsideVisibleView, visibleMonths.
  rewrite Hm. cbn [map hd_error existsb]. rewrite Hsame.
  repeat split. exact Hw.
Qed.

Lemma settled_cursor_in_view_witness :
  exists m,
    firstVisibleMonth (flush (snd (prevPage (constructed winterProps))))
    = Some m
    /\ isSameMonth
         (cursor (flush (snd (prevPage (constructed winterProps))))) m = true
    /\ isOutsideVisibleView
         (flush (snd (prevPage (constructed winterProps))))
         (cursor (flush (snd (prevPage (constructed winterProps))))) = false
    /\ watched (flush (snd (prevPage (constructed winterProps))))
       = cursor (flush (snd (prevPage (constructed winterProps)))).
Proof.
  apply settled_cursor_in_view, settled_prev, settled_init.
  - vm_compute. discriminate.
  - vm_compute. repeat split; discriminate.
Defined.

(** X3.  On a reachable state whose window and the window one page step
    later lie within the years 1..9999, [nextPage] returns with every
    visible month moved forward by the page step and the cursor on the
    new first visible month, before any watcher run. *)
Theorem nextPage_moves_every_month c g rest :
  reachable c -> months c = g :: rest ->
  inYears (MonthGrid.month g) ->
  inYears (addMonths (MonthGrid.month g)
                     (pageStep (props c) + Props.numberOfMonths (props c) - 1)) ->
  fst (nextPage c) = Returns tt
  /\ visibleMonths (snd (nextPage c))
     = map (fun m => addMonths m (pageStep (props c))) (visibleMonths c)
  /\ firstVisibleMonth (snd (nextPage c)) = Some (cursor (snd (nextPage c)))
  /\ isOutsideVisibleView (snd (nextPage c)) (cursor (snd (nextPage c)))
     = false.
Proof.
  intros Hr Hm _ _.
  destruct (nextPage_spec c g rest Hr Hm) as (g' & rest' & Hc & Hg' & Hnext).
  pose proof (moved_window c g rest (pageStep (props c)) Hr Hm) as Hmv.
  rewrite Hnext. cbn [fst snd].
  split; [reflexivity | split; [| split]].
  - unfold visibleMonths at 1. cbn [months setProps setMonths].
    rewrite <- Hc. exact Hmv.
  - unfold firstVisibleMonth, visibleMonths, cursor.
    cbn [months setProps setMonths props Props.dateCursor
         Props.setDateCursor map hd_error].
    rewrite Hg'. reflexivity.
  - unfold isOutsideVisibleView, visibleMonths, cursor.
    cbn [months setProps setMonths props Props.dateCursor
         Props.setDateCursor map existsb].
    rewrite Hg', isSameMonth_refl. reflexivity.
Qed.

Lemma nextPage_moves_every_month_witness :
  visibleMonths (snd (nextPage (constructed winterProps)))
  = [mkDate 2025 2 1; mkDate 2025 3 1].
Proof.
  destruct (nextPage_moves_every_month (constructed winterProps)
              (Utils.createMonth Dow1 true (mkDate 2024 12 10) 0)
              [Utils.createMonth Dow1 true (mkDate 2024 12 10) 1]
              (reachable_constructed winterProps) eq_refl)
    as (_ & H & _).
  - unfold inYears; vm_compute; split; discriminate.
  - unfold inYears; vm_compute; split; discriminate.
  - rewrite H. reflexivity.
Defined.

(** X4.  From a settled state whose window and the window one page step
    earlier lie within the years 1..9999, [prevPage] and the watcher run
    that follows move every visible month backward by the page step and
    leave the cursor on the new first visible month. *)
Theorem prevPage_moves_every_month c g rest :
  settled c -> months c = g :: rest ->
  inYears (subtractMonths (MonthGrid.month g) (pageStep (props c))) ->
  inYears (addMonths (MonthGrid.month g) (Props.numberOfMonths (props c) - 1)) ->
  fst (prevPage c) = Returns tt
  /\ visibleMonths (flush (snd (prevPage c)))
     = map (fun m => subtractMonths m (pageStep (props c))) (visibleMonths c)
  /\ firstVisibleMonth (flush (snd (prevPage c)))
     = Some (cursor (flush (snd (prevPage c)))).
Proof.
  intros Hs Hm _ _.
  destruct (settled_inv c Hs) as (Hr & g0 & rest0 & Hm0 & Hsame & Hw & _).
  rewrite Hm in Hm0. injection Hm0 as Hg0 Hrest0. subst g0 rest0.
  destruct (reachable_window c g rest Hr Hm) as [Hn [_ Hd]].
  split; [rewrite (prevPage_spec c g rest Hr Hm); reflexivity |].
  rewrite (prevPage_flush_state c g rest Hr Hm) by (rewrite Hw; exact Hsame).
  pose proof (addMonths_first (MonthGrid.month g) (- pageStep (props c)) Hd)
    as Hf.
  destruct (turned_window _ c Hn Hf) as (g' & rest' & Hm' & Hg').
  unfold subtractMonths. split.
  - unfold visibleMonths at 1. unfold turned at 1; cbn [months].
    apply (moved_window c g rest (- pageStep (props c)) Hr Hm).
  - unfold firstVisibleMonth, visibleMonths. rewrite Hm'.
    cbn [map hd_error]. rewrite Hg'. reflexivity.
Qed.

Lemma prevPage_moves_every_month_witness :
  visibleMonths (flush (snd (prevPage (constructed winterProps))))
  = [mkDate 2024 10 1; mkDate 2024 11 1].
Proof.
  destruct (prevPage_moves_every_month (constructed winterProps)
              (Utils.createMonth Dow1 true (mkDate 2024 12 10) 0)
              [Utils.createMonth Dow1 true (mkDate 2024 12 10) 1])
    as (_ & H & _).
  - apply settled_init.
    + vm_compute. discriminate.
    + vm_compute. repeat split; discriminate.
  - reflexivity.
  - unfold inYears; vm_compute; split; discriminate.
  - unfold inYears; vm_compute; split; discriminate.
  - rewrite H. reflexivity.
Defined.

Lemma reachable_turn_next c : reachable c -> reachable (flush (snd (nextPage c))).
Proof.
  intros Hr. eapply reachable_step; [| apply step_flush].
  eapply reachable_step; [exact Hr | apply step_next].
Qed.

Lemma reachable_turn_prev c : reachable c -> reachable (flush (snd (prevPage c))).
Proof.
  intros Hr. eapply reachable_step; [| apply step_flush].
  eapply reachable_step; [exact Hr | apply step_prev].
Qed.

(** X5.  On a reachable state whose window and the window one page step
    later lie within the years 1..9999, and with a watcher run after each
    command, [nextPage] followed by [prevPage] restores the whole window,
    grids and dates included, and leaves the cursor on the first visible
    month; this needs no settled start, since [nextPage] assigns the
    window itself. *)
Theorem next_then_prev_restores_window c g rest :
  reachable c -> months c = g :: rest ->
  inYears (MonthGrid.month g) ->
  inYears (addMonths (MonthGrid.month g)
                     (pageStep (props c) + Props.numberOfMonths (props c) - 1)) ->
  months (flush (snd (prevPage (flush (snd (nextPage c)))))) = months c
  /\ cursor (flush (snd (prevPage (flush (snd (nextPage c))))))
     = MonthGrid.month g.
Proof.
  intros Hr Hm _ _.
  destruct (reachable_window c g rest Hr Hm) as [Hn Hfst].
  pose proof Hfst as [_ Hd].
  pose proof (reachable_turn_next c Hr) as Hr1.
  rewrite (nextPage_flush_state c g rest Hr Hm) in Hr1 |- *.
  set (target := addMonths (MonthGrid.month g) (pageStep (props c))) in *.
  assert (Hf : firstOfMonth target) by (apply addMonths_first, Hd).
  destruct (turned_window target c Hn Hf) as (g1 & rest1 & Hm1 & Hg1).
  rewrite (prevPage_flush_state _ g1 rest1 Hr1 Hm1)
    by (rewrite Hg1; apply isSameMonth_refl).
  assert (Hback : subtractMonths (MonthGrid.month g1)
                                 (pageStep (props (turned target c)))
                  = MonthGrid.month g).
  { rewrite Hg1. unfold target, subtractMonths.
    change (pageStep (props (turned (addMonths (MonthGrid.month g)
                                       (pageStep (props c))) c)))
      with (pageStep (props c)).
    rewrite addMonths_addMonths by exact Hfst.
    replace (pageStep (props c) + - pageStep (props c)) with 0 by ring.
    apply addMonths_0, firstOfMonth_valid, Hfst. }
  rewrite Hback. split; [| reflexivity].
  rewrite (window_from_first c g rest Hr Hm). reflexivity.
Qed.

Lemma next_then_prev_restores_window_witness :
  months (flush (snd (prevPage (flush (snd (nextPage
            (constructed winterProps)))))))
  = months (constructed winterProps).
Proof.
  apply (next_then_prev_restores_window (constructed winterProps)
           (Utils.createMonth Dow1 true (mkDate 2024 12 10) 0)
           [Utils.createMonth Dow1 true (mkDate 2024 12 10) 1]
           (reachable_constructed winterProps) eq_refl).
  - unfold inYears; vm_compute; split; discriminate.
  - unfold inYears; vm_compute; split; discriminate.
Defined.

(** X6.  From a settled state whose window and the window one page step
    earlier lie within the years 1..9999, [prevPage] followed by
    [nextPage], with a watcher run after each, restores the whole window
    and leaves the cursor on the first visible month. *)
Theorem prev_then_next_restores_window c g rest :
  settled c -> months c = g :: rest ->
  inYears (subtractMonths (MonthGrid.month g) (pageStep (props c))) ->
  inYears (addMonths (MonthGrid.month g) (Props.numberOfMonths (props c) - 1)) ->
  months (flush (snd (nextPage (flush (snd (prevPage c)))))) = months c
  /\ firstVisibleMonth c
     = Some (cursor (flush (snd (nextPage (flush (snd (prevPage c))))))).
Proof.
  intros Hs Hm _ _.
  destruct (settled_inv c Hs) as (Hr & g0 & rest0 & Hm0 & Hsame & Hw & _).
  rewrite Hm in Hm0. injection Hm0 as Hg0 Hrest0. subst g0 rest0.
  destruct (reachable_window c g rest Hr Hm) as [Hn Hfst].
  pose proof Hfst as [_ Hd].
  pose proof (reachable_turn_prev c Hr) as Hr1.
  rewrite (prevPage_flush_state c g rest Hr Hm) in Hr1 |- *
    by (rewrite Hw; exact Hsame).
  set (target := subtractMonths (MonthGrid.month g) (pageStep (props c))) in *.
  assert (Hf : firstOfMonth target) by (apply addMonths_first, Hd).
  destruct (turned_window target c Hn Hf) as (g1 & rest1 & Hm1 & Hg1).
  rewrite (nextPage_flush_state _ g1 rest1 Hr1 Hm1).
  assert (Hback : addMonths (MonthGrid.month g1)
                            (pageStep (props (turned target c)))
                  = MonthGrid.month g).
  { rewrite Hg1. unfold target, subtractMonths.
    change (pageStep (props (turned (addMonths (MonthGrid.month g)
                                       (- pageStep (props c))) c)))
      with (pageStep (props c)).
    rewrite addMonths_addMonths by exact Hfst.
    replace (- pageStep (props c) + pageStep (props c)) with 0 by ring.
    apply addMonths_0, firstOfMonth_valid, Hfst. }
  rewrite Hback. split.
  - rewrite (window_from_first c g rest Hr Hm). reflexivity.
  - unfold firstVisibleMonth, visibleMonths. rewrite Hm. reflexivity.
Qed.

Lemma prev_then_next_restores_window_witness :
  months (flush (snd (nextPage (flush (snd (prevPage
            (constructed winterProps)))))))
  = months (constructed winterProps).
Proof.
  apply (prev_then_next_restores_window (constructed winterProps)
           (Utils.createMonth Dow1 true (mkDate 2024 12 10) 0)
           [Utils.createMonth Dow1 true (mkDate 2024 12 10) 1]).
  - apply settled_init.
    + vm_compute. discriminate.
    + vm_compute. repeat split; discriminate.
  - reflexivity.
  - unfold inYears; vm_compute; split; discriminate.
  - unfold inYears; vm_compute; split; discriminate.
Defined.

(** X7.  A second watcher run with no write to the cursor in between
    changes nothing. *)
Theorem flush_flush c : flush (flush c) = flush c.
Proof.
  unfold flush, onDateCursorChange.
  destruct (isSameMonth (Date.set (dateCursor c) (Props.dateCursor (props c)))
                        (Date.set (dateCursor c) (watched c)));
    cbn [props dateCursor watched months setWatched setMonths];
    rewrite isSameMonth_refl; reflexivity.
Qed.

(** X8.  From a settled state, a write of a date to the cursor and the
    watcher run that follows leave the window untouched when the date is
    in the month of the old cursor, and rebuild it from the date
    otherwise; either way the first visible month is then the month of the
    cursor. *)
Theorem cursor_write_then_watcher c v :
  settled c -> valid v ->
  months (flush (writeCursor v c))
  = (if isSameMonth v (cursor c) then months c
     else createMonthsFor (props c) v)
  /\ firstVisibleMonth (flush (writeCursor v c)) = Some (startOfMonth v)
  /\ cursor (flush (writeCursor v c)) = v.
Proof.
  intros Hs Hv.
  destruct (settled_inv c Hs) as (Hr & g & rest & Hm & Hsame & Hw & Hvc).
  destruct (reachable_window c g rest Hr Hm) as [Hn Hfst].
  unfold flush, onDateCursorChange, writeCursor, cursor in *.
  cbn [props setProps Props.dateCursor Props.setDateCursor dateCursor
       watched months].
  rewrite Hw, (set_valid _ v Hv), (set_valid _ _ Hvc).
  destruct (isSameMonth v (Props.dateCursor (props c))) eqn:Hsv;
    unfold firstVisibleMonth, visibleMonths;
    cbn [months setWatched setMonths setProps props Props.dateCursor
         Props.setDateCursor].
  - split; [reflexivity | split; [| reflexivity]].
    rewrite Hm. cbn [map hd_error]. f_equal.
    pose proof (isSameMonth_trans _ _ _ Hsv Hsame) as Hvg.
    apply isSameMonth_fields in Hvg. destruct Hvg as [Hy Hmo].
    destruct Hfst as [_ Hd1]. destruct (MonthGrid.month g) as [y m d1].
    cbn [year month day] in *. unfold startOfMonth. subst. reflexivity.
  - split; [reflexivity | split; [| reflexivity]].
    destruct (createMonths_cons (Props.weekStartsOn (props c))
                (Props.fixedWeeks (props c))
                (Props.numberOfMonths (props c)) v Hn) as [rest' Hc].
    unfold createMonthsFor.
    cbn [Props.weekStartsOn Props.fixedWeeks Props.numberOfMonths
         Props.setDateCursor].
    rewrite Hc. cbn [map hd_error]. unfold Utils.createMonth.
    cbn [MonthGrid.month]. rewrite addMonths_0 by exact Hv. reflexivity.
Qed.

Lemma cursor_write_then_watcher_witness :
  months (flush (writeCursor (mkDate 2024 12 31) (constructed winterProps)))
  = months (constructed winterProps)
  /\ firstVisibleMonth
       (flush (writeCursor (mkDate 2025 7 4) (constructed winterProps)))
     = Some (mkDate 2025 7 1).
Proof.
  assert (Hs : settled (constructed winterProps)).
  { apply settled_init.
    - vm_compute. discriminate.
    - vm_compute. repeat split; discriminate. }
  split.
  - destruct (cursor_write_then_watcher (constructed winterProps)
                (mkDate 2024 12 31) Hs) as (H & _).
    + vm_compute. repeat split; discriminate.
    + rewrite H. reflexivity.
  - destruct (cursor_write_then_watcher (constructed winterProps)
                (mkDate 2025 7 4) Hs) as (_ & H & _).
    + vm_compute. repeat split; discriminate.
    + exact H.
Defined.

End SettledFacts.

(** ** Bounds, buttons and dates *)

Section BoundFacts.

(** X9.  When the next button is disabled, every date from the first day
    of the month after the last visible one on is a disabled date. *)
Theorem next_disabled_covers_later_dates c g d :
  isNextButtonDisabled c = true ->
  lastGrid (months c) = Some g ->
  0 <= compare d (startOfMonth (addMonths (MonthGrid.month g) 1)) ->
  isDateDisabled c d = true.
Proof.
  unfold isNextButtonDisabled, isDateDisabled, Utils.isAfter, compare.
  intros Hnext Hg Hd. rewrite Hg in Hnext.
  destruct (maxValue c) as [maxV |]; [| discriminate].
  destruct (Props.disabled (props c)); [now rewrite orb_true_r |].
  rewrite orb_false_r.
  destruct (callMatcher (Props.isDateDisabled (props c)) d); [reflexivity |].
  apply Z.ltb_lt in Hnext.
  replace (0 <? toJulianDay d - toJulianDay maxV) with true
    by (symmetry; apply Z.ltb_lt; lia).
  reflexivity.
Qed.

Lemma next_disabled_covers_later_dates_witness :
  isDateDisabled (constructed winterProps) (mkDate 2025 2 1) = true.
Proof.
  apply (next_disabled_covers_later_dates (constructed winterProps)
           (Utils.createMonth Dow1 true (mkDate 2024 12 10) 1)).
  - reflexivity.
  - reflexivity.
  - vm_compute. discriminate.
Defined.

(** X10.  When the previous button is disabled, every date up to the last
    day of the month before the first visible one is a disabled date. *)
Theorem prev_disabled_covers_earlier_dates c g rest d :
  isPrevButtonDisabled c = true ->
  months c = g :: rest ->
  compare d (endOfMonth (subtractMonths (MonthGrid.month g) 1)) <= 0 ->
  isDateDisabled c d = true.
Proof.
  unfold isPrevButtonDisabled, isDateDisabled, Utils.isBefore, compare.
  intros Hprev Hg Hd. rewrite Hg in Hprev.
  destruct (minValue c) as [minV |]; [| discriminate].
  destruct (Props.disabled (props c)); [now rewrite orb_true_r |].
  rewrite orb_false_r.
  destruct (callMatcher (Props.isDateDisabled (props c)) d); [reflexivity |].
  apply Z.ltb_lt in Hprev.
  replace (toJulianDay d - toJulianDay minV <? 0) with true
    by (symmetry; apply Z.ltb_lt; lia).
  destruct (match maxValue c with
            | Some maxV => Utils.isAfter d maxV
            | None => false
            end); reflexivity.
Qed.

Lemma prev_disabled_covers_earlier_dates_witness :
  isDateDisabled
    (constructed (Props.setMinValue (Some (mkDate 2024 12 5)) winterProps))
    (mkDate 2024 11 30)
  = true.
Proof.
  apply (prev_disabled_covers_earlier_dates
           (constructed (Props.setMinValue (Some (mkDate 2024 12 5))
                                           winterProps))
           (Utils.createMonth Dow1 true (mkDate 2024 12 10) 0)
           [Utils.createMonth Dow1 true (mkDate 2024 12 10) 1]).
  - reflexivity.
  - reflexivity.
  - vm_compute. discriminate.
Defined.

(** X11.  The dates that are not disabled form an interval, up to the
    caller's predicate: a date between two enabled dates is enabled unless
    the predicate flags it. *)
Theorem enabled_dates_are_convex c a b d :
  isDateDisabled c a = false ->
  isDateDisabled c b = false ->
  compare a d <= 0 -> compare d b <= 0 ->
  callMatcher (Props.isDateDisabled (props c)) d = false ->
  isDateDisabled c d = false.
Proof.
  unfold isDateDisabled, Utils.isAfter, Utils.isBefore, compare.
  intros Ha Hb Had Hdb Hd. rewrite Hd.
  destruct (Props.disabled (props c));
    [rewrite orb_true_r in Ha; discriminate |].
  rewrite orb_false_r in Ha, Hb. cbn [orb].
  destruct (callMatcher (Props.isDateDisabled (props c)) a); [discriminate |].
  destruct (callMatcher (Props.isDateDisabled (props c)) b); [discriminate |].
  destruct (maxValue c) as [maxV |], (minValue c) as [minV |].
  - destruct (Z.ltb_spec 0 (toJulianDay a - toJulianDay maxV)); [discriminate |].
    destruct (Z.ltb_spec 0 (toJulianDay b - toJulianDay maxV)); [discriminate |].
    destruct (Z.ltb_spec (toJulianDay a - toJulianDay minV) 0); [discriminate |].
    destruct (Z.ltb_spec 0 (toJulianDay d - toJulianDay maxV)); [lia |].
    destruct (Z.ltb_spec (toJulianDay d - toJulianDay minV) 0); [lia |].
    reflexivity.
  - destruct (Z.ltb_spec 0 (toJulianDay b - toJulianDay maxV)); [discriminate |].
    destruct (Z.ltb_spec 0 (toJulianDay d - toJulianDay maxV)); [lia |].
    reflexivity.
  - destruct (Z.ltb_spec (toJulianDay a - toJulianDay minV) 0); [discriminate |].
    destruct (Z.ltb_spec (toJulianDay d - toJulianDay minV) 0); [lia |].
    reflexivity.
  - reflexivity.
Qed.

Lemma enabled_dates_are_convex_witness :
  isDateDisabled (constructed winterProps) (mkDate 2024 12 25) = false.
Proof.
  apply (enabled_dates_are_convex (constructed winterProps)
           (mkDate 2024 11 20) (mkDate 2025 1 31)).
  - reflexivity.
  - reflexivity.
  - vm_compute. discriminate.
  - vm_compute. discriminate.
  - reflexivity.
Defined.

Lemma isSameDay_eq a b : isSameDay a b = true -> a = b.
Proof.
  destruct a as [y m d], b as [y' m' d']. unfold isSameDay; cbn [year month day].
  intros H. apply andb_true_iff in H. destruct H as [H Hd].
  apply andb_true_iff in H. destruct H as [Hy Hm].
  apply Z.eqb_eq in Hy, Hm, Hd. subst. reflexivity.
Qed.

Lemma isSameDay_refl a : isSameDay a a = true.
Proof. unfold isSameDay. now rewrite !Z.eqb_refl. Qed.

(** A selected date the predicates flag makes the selection invalid. *)
Lemma selected_flagged_invalid sp d :
  CalendarState.isDateSelected sp d = true ->
  callMatcher (StateProps.isDateDisabled sp) d
  || callMatcher (StateProps.isDateUnavailable sp) d = true ->
  CalendarState.isInvalid sp = true.
Proof.
  unfold CalendarState.isDateSelected, CalendarState.isInvalid.
  destruct (StateProps.selection sp) as [| s | ds]; intros Hsel Hflag.
  - discriminate.
  - apply isSameDay_eq in Hsel. subst s.
    destruct (callMatcher (StateProps.isDateDisabled sp) d); [reflexivity |].
    destruct (callMatcher (StateProps.isDateUnavailable sp) d);
      [reflexivity | discriminate].
  - apply existsb_exists in Hsel. destruct Hsel as (s & Hin & Hs).
    apply isSameDay_eq in Hs. subst s.
    destruct ds as [| d0 ds0]; [contradiction |].
    rewrite anyInvalid_existsb. apply existsb_exists.
    exists d. split; assumption.
Qed.

(** X12.  For predicates that give dates of the same day the same
    answer, the selection is invalid exactly when some date that
    [isDateSelected] accepts is disabled or unavailable by them. *)
Theorem invalid_iff_a_selected_date_is_flagged sp :
  sameDayInvariant (StateProps.isDateDisabled sp) ->
  sameDayInvariant (StateProps.isDateUnavailable sp) ->
  (CalendarState.isInvalid sp = true <->
   exists d,
     CalendarState.isDateSelected sp d = true
     /\ callMatcher (StateProps.isDateDisabled sp) d
        || callMatcher (StateProps.isDateUnavailable sp) d = true).
Proof.
  intros Hdis Hunav. split.
  - unfold CalendarState.isInvalid, CalendarState.isDateSelected.
    destruct (StateProps.selection sp) as [| s | ds]; intros H.
    + discriminate.
    + exists s. split; [apply isSameDay_refl |].
      destruct (callMatcher (StateProps.isDateDisabled sp) s); [reflexivity |].
      destruct (callMatcher (StateProps.isDateUnavailable sp) s);
        [reflexivity | discriminate].
    + destruct ds as [| d0 ds0]; [discriminate |].
      rewrite anyInvalid_existsb in H. apply existsb_exists in H.
      destruct H as (d & Hin & Hflag). exists d. split; [| exact Hflag].
      apply existsb_exists. exists d. split; [exact Hin | apply isSameDay_refl].
  - intros (d & Hsel & Hflag).
    unfold CalendarState.isInvalid, CalendarState.isDateSelected in *.
    destruct (StateProps.selection sp) as [| s | ds].
    + discriminate.
    + rewrite <- (Hdis s d Hsel), <- (Hunav s d Hsel) in Hflag.
      destruct (callMatcher (StateProps.isDateDisabled sp) s); [reflexivity |].
      destruct (callMatcher (StateProps.isDateUnavailable sp) s);
        [reflexivity | discriminate].
    + apply existsb_exists in Hsel. destruct Hsel as (s & Hin & Hs).
      rewrite <- (Hdis s d Hs), <- (Hunav s d Hs) in Hflag.
      destruct ds as [| d0 ds0]; [contradiction |].
      rewrite anyInvalid_existsb. apply existsb_exists.
      exists s. split; assumption.
Qed.

Lemma invalid_iff_a_selected_date_is_flagged_witness :
  CalendarState.isInvalid
    (StateProps.mk (Some (fun d => day d =? 13)) None
                   (Many [mkDate 2024 12 24; mkDate 2024 12 13]))
  = true.
Proof.
  apply (invalid_iff_a_selected_date_is_flagged
           (StateProps.mk (Some (fun d => day d =? 13)) None
                          (Many [mkDate 2024 12 24; mkDate 2024 12 13]))).
  - intros a b H. cbn [StateProps.isDateDisabled callMatcher].
    unfold isSameDay in H. apply andb_true_iff in H. destruct H as [_ H].
    apply Z.eqb_eq in H. rewrite H. reflexivity.
  - intros a b _. reflexivity.
  - exists (mkDate 2024 12 13). split; reflexivity.
Defined.

(** X13.  With the controller's [isDateDisabled] passed to
    [useCalendarState] as its disabled predicate, a selection is invalid
    as soon as the calendar is globally disabled or one selected date lies
    after [maxValue] or before [minValue]. *)
Theorem bounds_invalidate_selection c unav sel d :
  CalendarState.isDateSelected
    (StateProps.mk (Some (isDateDisabled c)) unav sel) d = true ->
  Props.disabled (props c) = true
  \/ (exists maxV, maxValue c = Some maxV /\ 0 < compare d maxV)
  \/ (exists minV, minValue c = Some minV /\ compare d minV < 0) ->
  CalendarState.isInvalid (StateProps.mk (Some (isDateDisabled c)) unav sel)
  = true.
Proof.
  intros Hsel Hwhy. apply (selected_flagged_invalid _ d Hsel).
  cbn [StateProps.isDateDisabled callMatcher].
  replace (isDateDisabled c d) with true; [reflexivity |].
  symmetry. unfold isDateDisabled, Utils.isAfter, Utils.isBefore.
  destruct Hwhy as [Hdis | [(maxV & Hmax & Hd) | (minV & Hmin & Hd)]].
  - rewrite Hdis, orb_true_r. reflexivity.
  - rewrite Hmax. apply Z.ltb_lt in Hd. rewrite Hd.
    destruct (_ || _); reflexivity.
  - rewrite Hmin. apply Z.ltb_lt in Hd. rewrite Hd.
    destruct (_ || _); [reflexivity |].
    destruct (match maxValue c with
              | Some maxV => 0 <? compare d maxV
              | None => false
              end); reflexivity.
Qed.

Lemma bounds_invalidate_selection_witness :
  CalendarState.isInvalid
    (StateProps.mk (Some (isDateDisabled (constructed winterProps))) None
                   (Many [mkDate 2024 12 24; mkDate 2025 2 2]))
  = true.
Proof.
  apply (bounds_invalidate_selection (constructed winterProps) None
           (Many [mkDate 2024 12 24; mkDate 2025 2 2]) (mkDate 2025 2 2)).
  - reflexivity.
  - right; left. exists (mkDate 2025 1 31). split; reflexivity.
Defined.

End BoundFacts.

(** ** The weekday header and the visible view *)

Section ViewFacts.

Lemma daysFrom_map n : forall d,
  Utils.daysFrom n d = map (addDays d) (seq 0 n).
Proof.
  induction n as [| n IH]; intros d; [reflexivity |].
  cbn [Utils.daysFrom seq map]. rewrite IH, <- seq_shift, map_map.
  reflexivity.
Qed.

Lemma firstn_daysFrom k n d :
  (k <= n)%nat -> firstn k (Utils.daysFrom n d) = Utils.daysFrom k d.
Proof.
  revert n d. induction k as [| k IH]; intros n d Hk; [reflexivity |].
  destruct n as [| n]; [lia |].
  cbn [Utils.daysFrom firstn]. rewrite IH by lia. reflexivity.
Qed.

(** The loop pushes the names of the next [r] dates when the array holds
    that many. *)
Lemma pushWeekdays_names dayOfWeek format label dates :
  (forall d, dayOfWeek (Some d) format = Returns (label d)) ->
  forall r idx names,
    (idx + r <= List.length dates)%nat ->
    pushWeekdays dayOfWeek format dates idx r names
    = Returns (names ++ map label (firstn r (skipn idx dates))).
Proof.
  intros Hlabel. induction r as [| r IH]; intros idx names Hlen.
  - cbn [pushWeekdays firstn map]. rewrite app_nil_r. reflexivity.
  - cbn [pushWeekdays].
    destruct (nth_error dates idx) as [d |] eqn:Hnth;
      [| apply nth_error_None in Hnth; lia].
    rewrite Hlabel, IH by lia.
    assert (Hskip : skipn idx dates = d :: skipn (S idx) dates).
    { clear - Hnth. revert dates Hnth.
      induction idx as [| idx IHi]; intros [| x xs] Hnth;
        try discriminate.
      - injection Hnth as ->. reflexivity.
      - cbn [skipn]. apply IHi. exact Hnth. }
    rewrite Hskip. cbn [firstn map]. rewrite <- app_assoc. reflexivity.
Qed.

(** The first grid of a reachable state: its dates run from the first
    visible date of its month, over four weeks at least. *)
Lemma first_grid_dates c g rest :
  reachable c -> months c = g :: rest ->
  exists n,
    (28 <= n)%nat
    /\ MonthGrid.dates g
       = Utils.daysFrom n (Utils.firstVisible (Props.weekStartsOn (props c))
                                              (MonthGrid.month g)).
Proof.
  intros Hr Hm.
  destruct (reachable_window c g rest Hr Hm) as [Hn Hfst].
  pose proof (window_from_first c g rest Hr Hm) as Hw.
  rewrite Hm in Hw. unfold createMonthsFor in Hw.
  destruct (createMonths_cons (Props.weekStartsOn (props c))
              (Props.fixedWeeks (props c)) (Props.numberOfMonths (props c))
              (MonthGrid.month g) Hn) as [rest' Hc].
  rewrite Hc in Hw. injection Hw as Hg _.
  assert (Hmd : startOfMonth (addMonths (MonthGrid.month g) 0)
                = MonthGrid.month g).
  { rewrite addMonths_0 by (apply firstOfMonth_valid, Hfst).
    apply startOfMonth_first, Hfst. }
  destruct (lastVisible_spec (Props.weekStartsOn (props c))
              (Props.fixedWeeks (props c)) (MonthGrid.month g)
              (proj1 Hfst)) as (_ & Hrange & _).
  eexists. split; [| rewrite Hg at 1; unfold Utils.createMonth;
                     cbn [MonthGrid.dates]; rewrite Hmd; reflexivity].
  lia.
Qed.

(** X14.  On a reachable state with a window, and a formatter that names
    every date, [weekdays] returns seven names: those of the first seven
    dates of the first grid, which are consecutive days starting on
    [weekStartsOn]. *)
Theorem weekdays_start_the_week dayOfWeek label c g rest :
  reachable c -> months c = g :: rest ->
  (forall d,
      dayOfWeek (Some d) (Props.weekdayFormat (props c)) = Returns (label d)) ->
  weekdays dayOfWeek c = Returns (map label (firstn 7 (MonthGrid.dates g)))
  /\ map getDayOfWeek (firstn 7 (MonthGrid.dates g))
     = map (fun i => (dayNumber (Props.weekStartsOn (props c)) + i) mod 7)
           [0; 1; 2; 3; 4; 5; 6].
Proof.
  intros Hr Hm Hlabel.
  destruct (first_grid_dates c g rest Hr Hm) as (n & Hn & Hdates).
  destruct (reachable_window c g rest Hr Hm) as [_ Hfst].
  destruct (firstVisible_spec (Props.weekStartsOn (props c))
              (MonthGrid.month g) (proj1 Hfst)) as (Hv & _ & Hdow).
  split.
  - unfold weekdays. rewrite Hm.
    rewrite (pushWeekdays_names dayOfWeek _ label (MonthGrid.dates g) Hlabel
               7 0 []).
    + reflexivity.
    + rewrite Hdates, length_daysFrom. lia.
  - rewrite Hdates, firstn_daysFrom by lia.
    set (first := Utils.firstVisible (Props.weekStartsOn (props c))
                                     (MonthGrid.month g)) in *.
    rewrite daysFrom_map, map_map.
    change [0; 1; 2; 3; 4; 5; 6] with (map Z.of_nat (seq 0 7)).
    rewrite map_map. apply map_ext. intros i.
    destruct (addDays_spec i first Hv) as [_ Hj].
    unfold getDayOfWeek in *. rewrite Hj, <- Hdow.
    rewrite Zplus_mod_idemp_l. f_equal. ring.
Qed.

Lemma weekdays_start_the_week_witness :
  weekdays
    (fun od _ =>
       match od with
       | Some d =>
           Returns (nth (Z.to_nat (getDayOfWeek d))
                        ["Sun"; "Mon"; "Tue"; "Wed"; "Thu"; "Fri"; "Sat"]%string
                        EmptyString)
       | None => Throws TypeError
       end)
    (constructed winterProps)
  = Returns ["Mon"; "Tue"; "Wed"; "Thu"; "Fri"; "Sat"; "Sun"]%string.
Proof.
  destruct (weekdays_start_the_week
              (fun od _ =>
                 match od with
                 | Some d =>
                     Returns (nth (Z.to_nat (getDayOfWeek d))
                                  ["Sun"; "Mon"; "Tue"; "Wed"; "Thu"; "Fri";
                                   "Sat"]%string
                                  EmptyString)
                 | None => Throws TypeError
                 end)
              (fun d => nth (Z.to_nat (getDayOfWeek d))
                            ["Sun"; "Mon"; "Tue"; "Wed"; "Thu"; "Fri";
                             "Sat"]%string
                            EmptyString)
              (constructed winterProps)
              (Utils.createMonth Dow1 true (mkDate 2024 12 10) 0)
              [Utils.createMonth Dow1 true (mkDate 2024 12 10) 1]
              (reachable_constructed winterProps) eq_refl
              (fun d => eq_refl)) as [H _].
  rewrite H. reflexivity.
Defined.

Lemma isSameMonth_index d k :
  1 <= month d <= 12 ->
  (isSameMonth d (monthOfIndex k) = true <-> monthIndex d = k).
Proof.
  intros Hm. unfold isSameMonth, startOfMonth, monthOfIndex, monthIndex.
  cbn [year month]. rewrite andb_true_iff, !Z.eqb_eq.
  split; [intros [Hy Hmo] | intros Hk]; Z.div_mod_to_equations; lia.
Qed.

(** A date is inside the view when its month is one of the
    [numberOfMonths] months from the first visible one on. *)
Lemma isOutsideVisibleView_index c g rest d :
  reachable c -> months c = g :: rest -> 1 <= month d <= 12 ->
  (isOutsideVisibleView c d = false <->
   0 <= monthIndex d - monthIndex (MonthGrid.month g)
     < Props.numberOfMonths (props c)).
Proof.
  intros Hr Hm Hd.
  destruct (reachable_window c g rest Hr Hm) as [Hn Hfst].
  unfold isOutsideVisibleView. rewrite negb_false_iff, existsb_exists.
  rewrite (visibleMonths_from_first c g rest Hr Hm).
  split.
  - intros (m & Hin & Hsame). apply in_map_iff in Hin.
    destruct Hin as (i & <- & Hi). apply in_seq in Hi.
    rewrite (firstOfMonth_index _ Hfst), addMonths_monthOfIndex in Hsame.
    apply (isSameMonth_index d _ Hd) in Hsame. lia.
  - intros Hrange.
    exists (addMonths (MonthGrid.month g)
                      (Z.of_nat (Z.to_nat (monthIndex d
                                           - monthIndex (MonthGrid.month g))))).
    split.
    + apply in_map_iff. eexists. split; [reflexivity |]. apply in_seq. lia.
    + rewrite (firstOfMonth_index _ Hfst) at 1.
      rewrite addMonths_monthOfIndex. apply (isSameMonth_index d _ Hd). lia.
Qed.

(** X15.  In a reachable state with a window, a date is inside the visible
    view exactly when its month is one of the [numberOfMonths] months
    counted from the first visible month. *)
Theorem inside_view_iff_month_in_window c g rest d :
  reachable c -> months c = g :: rest -> valid d ->
  (isOutsideVisibleView c d = false <->
   0 <= monthIndex d - monthIndex (MonthGrid.month g)
     < Props.numberOfMonths (props c)).
Proof.
  intros Hr Hm Hv.
  exact (isOutsideVisibleView_index c g rest d Hr Hm (proj1 Hv)).
Qed.

Lemma inside_view_iff_month_in_window_witness :
  isOutsideVisibleView (constructed winterProps) (mkDate 2025 1 15) = false
  /\ 0 <= monthIndex (mkDate 2025 1 15) - monthIndex (mkDate 2024 12 1)
       < Props.numberOfMonths winterProps.
Proof.
  assert (H : 0 <= monthIndex (mkDate 2025 1 15) - monthIndex (mkDate 2024 12 1)
                < Props.numberOfMonths winterProps)
    by (vm_compute; split; [discriminate | reflexivity]).
  split; [| exact H].
  apply (inside_view_iff_month_in_window (constructed winterProps)
           (Utils.createMonth Dow1 true (mkDate 2024 12 10) 0)
           [Utils.createMonth Dow1 true (mkDate 2024 12 10) 1]
           (mkDate 2025 1 15) (reachable_constructed winterProps) eq_refl).
  - vm_compute. repeat split; discriminate.
  - exact H.
Defined.

Lemma lastGrid_cons x y ys : lastGrid (x :: y :: ys) = lastGrid (y :: ys).
Proof. reflexivity. Qed.

Lemma lastGrid_map_seq (f : nat -> MonthGrid.t) k : forall a,
  lastGrid (map f (seq a (S k))) = Some (f (a + k)%nat).
Proof.
  induction k as [| k IH]; intros a.
  - cbn [seq map lastGrid]. rewrite Nat.add_0_r. reflexivity.
  - specialize (IH (S a)).
    change (seq a (S (S k))) with (a :: S a :: seq (S (S a)) k).
    change (seq (S a) (S k)) with (S a :: seq (S (S a)) k) in IH.
    cbn [map] in IH |- *. rewrite lastGrid_cons, IH.
    f_equal. f_equal. lia.
Qed.

Lemma lastGrid_month c g rest l :
  reachable c -> months c = g :: rest -> lastGrid (months c) = Some l ->
  monthIndex (MonthGrid.month l)
  = monthIndex (MonthGrid.month g) + Props.numberOfMonths (props c) - 1.
Proof.
  intros Hr Hm Hl.
  destruct (reachable_window c g rest Hr Hm) as [Hn Hfst].
  rewrite (window_from_first c g rest Hr Hm) in Hl.
  unfold createMonthsFor, Utils.createMonths in Hl.
  destruct (Z.to_nat (Props.numberOfMonths (props c))) as [| k] eqn:Hk; [lia |].
  rewrite lastGrid_map_seq in Hl. injection Hl as <-.
  rewrite createMonth_month, monthIndex_monthOfIndex. lia.
Qed.

(** X16.  On a reachable state whose window and the window one page step
    later lie within the years 1..9999, the month whose first day
    [isNextButtonDisabled] compares with [maxValue], the one after the
    last visible month, is outside the view before [nextPage] and inside
    it after, paged or not. *)
Theorem nextPage_reveals_the_tested_month c g rest l :
  reachable c -> months c = g :: rest -> lastGrid (months c) = Some l ->
  inYears (MonthGrid.month g) ->
  inYears (addMonths (MonthGrid.month g)
                     (pageStep (props c) + Props.numberOfMonths (props c) - 1)) ->
  isOutsideVisibleView c (startOfMonth (addMonths (MonthGrid.month l) 1))
  = true
  /\ isOutsideVisibleView (snd (nextPage c))
       (startOfMonth (addMonths (MonthGrid.month l) 1))
     = false.
Proof.
  intros Hr Hm Hl _ _.
  destruct (reachable_window c g rest Hr Hm) as [Hn [_ Hd]].
  pose proof (lastGrid_month c g rest l Hr Hm Hl) as Hidx.
  set (m := startOfMonth (addMonths (MonthGrid.month l) 1)).
  assert (Hmi : monthIndex m
                = monthIndex (MonthGrid.month g)
                  + Props.numberOfMonths (props c))
    by (unfold m; rewrite addMonths_index, monthIndex_monthOfIndex; lia).
  assert (Hmm : 1 <= month m <= 12)
    by (unfold m; rewrite addMonths_index; apply firstOfMonth_monthOfIndex).
  split.
  - destruct (isOutsideVisibleView c m) eqn:Hout; [reflexivity |].
    apply (isOutsideVisibleView_index c g rest m Hr Hm Hmm) in Hout. lia.
  - destruct (nextPage_spec c g rest Hr Hm) as (g' & rest' & Hc & Hg' & Hnext).
    assert (Hr' : reachable (snd (nextPage c)))
      by (eapply reachable_step; [exact Hr | apply step_next]).
    assert (Hm' : months (snd (nextPage c)) = g' :: rest')
      by (rewrite Hnext; reflexivity).
    apply (isOutsideVisibleView_index _ g' rest' m Hr' Hm' Hmm).
    rewrite Hg', monthIndex_addMonths, Hmi.
    replace (Props.numberOfMonths (props (snd (nextPage c))))
      with (Props.numberOfMonths (props c)) by (rewrite Hnext; reflexivity).
    unfold pageStep. destruct (Props.pagedNavigation (props c)); lia.
Qed.

Lemma nextPage_reveals_the_tested_month_witness :
  isOutsideVisibleView (constructed winterProps) (mkDate 2025 2 1) = true
  /\ isOutsideVisibleView (snd (nextPage (constructed winterProps)))
       (mkDate 2025 2 1) = false.
Proof.
  apply (nextPage_reveals_the_tested_month (constructed winterProps)
           (Utils.createMonth Dow1 true (mkDate 2024 12 10) 0)
           [Utils.createMonth Dow1 true (mkDate 2024 12 10) 1]
           (Utils.createMonth Dow1 true (mkDate 2024 12 10) 1)
           (reachable_constructed winterProps) eq_refl eq_refl).
  - unfold inYears; vm_compute; split; discriminate.
  - unfold inYears; vm_compute; split; discriminate.
Defined.

End ViewFacts.

(** ** Construction, and commands issued before the watcher runs *)

Section TimingFacts.

Lemma isSameMonth_sym a b : isSameMonth a b = isSameMonth b a.
Proof.
  unfold isSameMonth, startOfMonth; cbn [year month].
  rewrite (Z.eqb_sym (year a)), (Z.eqb_sym (month a)). reflexivity.
Qed.

(** X17.  Constructed with at least one month, a real cursor date and
    real bounds, the controller shows the month of the cursor first, has
    the cursor inside its view, and holds bounds with the year, month and
    day of the bounds given. *)
Theorem construction_shows_cursor_month p :
  1 <= Props.numberOfMonths p ->
  valid (Props.dateCursor p) ->
  (forall b, Props.minValue p = Some b -> valid b) ->
  (forall b, Props.maxValue p = Some b -> valid b) ->
  useCalendar p = Returns (constructed p)
  /\ firstVisibleMonth (constructed p) = Some (startOfMonth (Props.dateCursor p))
  /\ isOutsideVisibleView (constructed p) (Props.dateCursor p) = false
  /\ option_map (fun b => (year b, month b, day b)) (minValue (constructed p))
     = option_map (fun b => (year b, month b, day b)) (Props.minValue p)
  /\ option_map (fun b => (year b, month b, day b)) (maxValue (constructed p))
     = option_map (fun b => (year b, month b, day b)) (Props.maxValue p).
Proof.
  intros Hn Hv Hmin Hmax. split; [reflexivity |].
  unfold constructed, useCalendar, firstVisibleMonth, isOutsideVisibleView,
    visibleMonths; cbn [months minValue maxValue].
  destruct (createMonths_cons (Props.weekStartsOn p) (Props.fixedWeeks p)
              (Props.numberOfMonths p) (Props.dateCursor p) Hn) as [rest Hc].
  unfold createMonthsFor. rewrite Hc. cbn [map hd_error existsb].
  unfold Utils.createMonth; cbn [MonthGrid.month].
  rewrite addMonths_0 by exact Hv. rewrite isSameMonth_startOfMonth.
  split; [reflexivity | split; [reflexivity |]].
  split.
  - destruct (Props.minValue p) as [b |]; [| reflexivity].
    cbn [option_map]. rewrite set_valid by (apply Hmin; reflexivity).
    reflexivity.
  - destruct (Props.maxValue p) as [b |]; [| reflexivity].
    cbn [option_map]. rewrite set_valid by (apply Hmax; reflexivity).
    reflexivity.
Qed.

Lemma construction_shows_cursor_month_witness :
  firstVisibleMonth (constructed winterProps) = Some (mkDate 2024 12 1)
  /\ isOutsideVisibleView (constructed winterProps) (mkDate 2024 12 10) = false.
Proof.
  destruct (construction_shows_cursor_month winterProps)
    as (_ & Hf & Hin & _).
  - vm_compute. discriminate.
  - vm_compute. repeat split; discriminate.
  - intros b Hb. injection Hb as <-. vm_compute. repeat split; discriminate.
  - intros b Hb. injection Hb as <-. vm_compute. repeat split; discriminate.
  - split; [exact Hf | exact Hin].
Defined.

(** X18.  From a settled state whose window and the window one page step
    later lie within the years 1..9999, [nextPage] followed by [prevPage]
    before the watcher has run leaves the window where [nextPage] put it,
    also after the watcher runs, while the cursor is back on the first
    month the window showed before. *)
Theorem next_then_prev_before_watcher c g rest :
  settled c -> months c = g :: rest ->
  inYears (MonthGrid.month g) ->
  inYears (addMonths (MonthGrid.month g)
                     (pageStep (props c) + Props.numberOfMonths (props c) - 1)) ->
  months (flush (snd (prevPage (snd (nextPage c)))))
  = months (snd (nextPage c))
  /\ visibleMonths (flush (snd (prevPage (snd (nextPage c)))))
     = map (fun m => addMonths m (pageStep (props c))) (visibleMonths c)
  /\ firstVisibleMonth c
     = Some (cursor (flush (snd (prevPage (snd (nextPage c)))))).
Proof.
  intros Hs Hm _ _.
  destruct (settled_inv c Hs) as (Hr & g0 & rest0 & Hm0 & Hsame & Hw & Hvc).
  rewrite Hm in Hm0. injection Hm0 as Hg0 Hrest0. subst g0 rest0.
  destruct (reachable_window c g rest Hr Hm) as [Hn Hfst].
  destruct (nextPage_spec c g rest Hr Hm) as (g' & rest' & Hc & Hg' & Hnext).
  pose proof (moved_window c g rest (pageStep (props c)) Hr Hm) as Hmv.
  assert (Hr1 : reachable (snd (nextPage c)))
    by (eapply reachable_step; [exact Hr | apply step_next]).
  assert (Hm1 : months (snd (nextPage c)) = g' :: rest')
    by (rewrite Hnext; reflexivity).
  assert (Hback : subtractMonths (MonthGrid.month g')
                                 (pageStep (props (snd (nextPage c))))
                  = MonthGrid.month g).
  { rewrite Hg'. unfold subtractMonths.
    replace (pageStep (props (snd (nextPage c)))) with (pageStep (props c))
      by (rewrite Hnext; reflexivity).
    rewrite addMonths_addMonths by exact Hfst.
    replace (pageStep (props c) + - pageStep (props c)) with 0 by ring.
    apply addMonths_0, firstOfMonth_valid, Hfst. }
  assert (Hmonths : months (flush (snd (prevPage (snd (nextPage c)))))
                    = months (snd (nextPage c))
                    /\ cursor (flush (snd (prevPage (snd (nextPage c)))))
                       = MonthGrid.month g).
  { rewrite (prevPage_spec _ g' rest' Hr1 Hm1), Hback. cbn [snd].
    unfold flush, onDateCursorChange, cursor.
    cbn [props setProps Props.dateCursor Props.setDateCursor dateCursor
         watched].
    replace (watched (snd (nextPage c))) with (watched c)
      by (rewrite Hnext; reflexivity).
    rewrite Hw. unfold cursor in *.
    rewrite (set_valid _ _ (firstOfMonth_valid _ Hfst)), (set_valid _ _ Hvc).
    rewrite isSameMonth_sym, Hsame. split; reflexivity. }
  destruct Hmonths as [Hms Hcur].
  split; [exact Hms | split].
  - unfold visibleMonths at 1. rewrite Hms, Hm1, <- Hc. exact Hmv.
  - rewrite Hcur. unfold firstVisibleMonth, visibleMonths. rewrite Hm.
    reflexivity.
Qed.

Lemma next_then_prev_before_watcher_witness :
  visibleMonths (flush (snd (prevPage (snd (nextPage
                   (constructed winterProps))))))
  = [mkDate 2025 2 1; mkDate 2025 3 1]
  /\ cursor (flush (snd (prevPage (snd (nextPage (constructed winterProps))))))
     = mkDate 2024 12 1.
Proof.
  destruct (next_then_prev_before_watcher (constructed winterProps)
              (Utils.createMonth Dow1 true (mkDate 2024 12 10) 0)
              [Utils.createMonth Dow1 true (mkDate 2024 12 10) 1])
    as (_ & Hv & Hc).
  - apply settled_init.
    + vm_compute. discriminate.
    + vm_compute. repeat split; discriminate.
  - reflexivity.
  - unfold inYears; vm_compute; split; discriminate.
  - unfold inYears; vm_compute; split; discriminate.
  - split; [rewrite Hv; reflexivity | reflexivity].
Defined.

End TimingFacts.
